(** * calc-trig: the line parser and evaluator of [calc.cpp]

    A shallow embedding of [src/calc.cpp] and of the read loop of
    [src/main.cpp].

    - [double] is IEEE 754 binary64, modelled by [spec_float] with the
      operations of [SpecFloat] at precision 53 and [emax] 1024 (round to
      nearest, ties to even).  [spec_float] has one NaN: the sign bit and
      the payload of a NaN are not represented.
    - [std::string] is a list of characters; [line[i]] at [i = size()] is
      the terminating NUL, as [std::string::operator[]] gives it.
    - [std::size_t] cursors are natural numbers: a cursor never exceeds the
      length of the line plus one, and [i -= n] always undoes [n] earlier
      increments.
    - Each [std::cerr << ... << std::endl] statement is one constructor of
      [Diag]; a function that writes to [std::cerr] returns the list of the
      diagnostics it wrote, in order.
    - [bool &rad_on] is passed in and returned.
    - [std::sqrt] is the correctly rounded square root of [SpecFloat];
      the other functions of [<cmath>] that the code calls are operations
      of the class [LibM]. *)

From Stdlib Require Import String Ascii ZArith List Bool Arith Lia.
From Stdlib Require Import Floats.SpecFloat.
Import ListNotations.


(** ** binary64 *)

Definition float : Type := spec_float.

Module F.

Definition prec : Z := 53.
Definition emax : Z := 1024.

Definition add : float -> float -> float := SFadd prec emax.
Definition sub : float -> float -> float := SFsub prec emax.
Definition mul : float -> float -> float := SFmul prec emax.
Definition div : float -> float -> float := SFdiv prec emax.
Definition sqrt : float -> float := SFsqrt prec emax.
Definition opp : float -> float := SFopp.
Definition abs : float -> float := SFabs.

(** The comparison operators of C: all false on NaN, except [!=]. *)
Definition lt (x y : float) : bool := SFltb x y.
Definition le (x y : float) : bool := SFleb x y.
Definition gt (x y : float) : bool := SFltb y x.
Definition neq (x y : float) : bool := negb (SFeqb x y).

(** Conversion of an [int] to [double]. *)
Definition of_Z (z : Z) : float := binary_normalize prec emax z 0 false.

Definition zero : float := S754_zero false.
Definition infinity : float := S754_infinity false.
Definition nan : float := S754_nan.

Definition is_nan (x : float) : bool :=
  match x with S754_nan => true | _ => false end.

Definition is_finite (x : float) : bool :=
  match x with S754_zero _ | S754_finite _ _ _ => true | _ => false end.

End F.

(** ** Constants of [calc.cpp] and of [<cmath>] *)

Definition max_decimal_digits : nat := 10.

(** [const double eps = 1e-10;] *)
Definition eps : float := S754_finite false 7737125245533627 (-86).

(** [const double inf = 16331239353195370;] *)
Definition inf : float := S754_finite false 8165619676597685 1.

(** [INFINITY] *)
Definition INFINITY : float := F.infinity.

(** [M_PI], 3.14159265358979323846 *)
Definition M_PI : float := S754_finite false 7074237752028440 (-51).

(** ** Operations *)

Inductive Op : Type :=
| ERR | SET | ADD | SUB | MUL | DIV | REM | NEG | POW | SQRT | SIN | COS
| RAD | DEG | TAN | CTN | ASIN | ACOS | ATAN | ACTN.

Definition Op_eq_dec (a b : Op) : {a = b} + {a <> b}.
Proof. decide equality. Defined.

Definition arity (op : Op) : nat :=
  match op with
  | ERR => 0
  | RAD => 0
  | DEG => 0
  | SIN => 1
  | COS => 1
  | TAN => 1
  | CTN => 1
  | ASIN => 1
  | ACOS => 1
  | ATAN => 1
  | ACTN => 1
  | NEG => 1
  | SQRT => 1
  | SET => 2
  | ADD => 2
  | SUB => 2
  | MUL => 2
  | DIV => 2
  | REM => 2
  | POW => 2
  end.

(** ** Lines, cursors and diagnostics *)

Definition line_t := list ascii.

Definition str (s : string) : line_t := list_ascii_of_string s.

(** [line[i]] *)
Definition at_ (line : line_t) (i : nat) : ascii := nth i line zero.

(** [line.substr(i)] for [i <= line.size()] *)
Definition substr (line : line_t) (i : nat) : line_t := skipn i line.

Inductive Diag : Type :=
| Unknown_operation (line : line_t)
| Suffix_left (suffix : line_t)
| Bad_SQRT (current : float)
| Bad_ASIN (current : float)
| Bad_ACOS (current : float)
| Bad_ATAN (current : float)
| Bad_ACTN (current : float)
| Bad_division (right : float)
| Bad_remainder (right : float).

(** ** [parse_op] *)

Open Scope char_scope.

(** The lambda [rollback] of [parse_op], applied at cursor [i]. *)
Definition rollback (line : line_t) (i n : nat) : Op * nat * list Diag :=
  (ERR, i - n, [Unknown_operation line]).

Definition parse_op (line : line_t) (i : nat) : Op * nat * list Diag :=
  match at_ line i with
  | "0" | "1" | "2" | "3" | "4" | "5" | "6" | "7" | "8" | "9" =>
      (SET, (i + 1) - 1, [])
  | "+" => (ADD, i + 1, [])
  | "-" => (SUB, i + 1, [])
  | "*" => (MUL, i + 1, [])
  | "/" => (DIV, i + 1, [])
  | "%" => (REM, i + 1, [])
  | "_" => (NEG, i + 1, [])
  | "^" => (POW, i + 1, [])
  | "A" =>
      match at_ line (i + 1) with
      | "C" =>
          match at_ line (i + 2) with
          | "O" =>
              match at_ line (i + 3) with
              | "S" => (ACOS, i + 4, [])
              | _ => rollback line (i + 4) 4
              end
          | "T" =>
              match at_ line (i + 3) with
              | "N" => (ACTN, i + 4, [])
              | _ => rollback line (i + 4) 4
              end
          | _ => rollback line (i + 3) 3
          end
      | "S" =>
          match at_ line (i + 2) with
          | "I" =>
              match at_ line (i + 3) with
              | "N" => (ASIN, i + 4, [])
              | _ => rollback line (i + 4) 4
              end
          | _ => rollback line (i + 3) 3
          end
      | "T" =>
          match at_ line (i + 2) with
          | "A" =>
              match at_ line (i + 3) with
              | "N" => (ATAN, i + 4, [])
              | _ => rollback line (i + 4) 4
              end
          | _ => rollback line (i + 3) 3
          end
      | _ => rollback line (i + 2) 2
      end
  | "S" =>
      match at_ line (i + 1) with
      | "Q" =>
          match at_ line (i + 2) with
          | "R" =>
              match at_ line (i + 3) with
              | "T" => (SQRT, i + 4, [])
              | _ => rollback line (i + 4) 4
              end
          | _ => rollback line (i + 3) 3
          end
      | "I" =>
          match at_ line (i + 2) with
          | "N" => (SIN, i + 3, [])
          | _ => rollback line (i + 3) 3
          end
      | _ => rollback line (i + 2) 2
      end
  | "C" =>
      match at_ line (i + 1) with
      | "O" =>
          match at_ line (i + 2) with
          | "S" => (COS, i + 3, [])
          | _ => rollback line (i + 3) 3
          end
      | "T" =>
          match at_ line (i + 2) with
          | "N" => (CTN, i + 3, [])
          | _ => rollback line (i + 3) 3
          end
      | _ => rollback line (i + 2) 2
      end
  | "R" =>
      match at_ line (i + 1) with
      | "A" =>
          match at_ line (i + 2) with
          | "D" => (RAD, i + 3, [])
          | _ => rollback line (i + 3) 3
          end
      | _ => rollback line (i + 2) 2
      end
  | "D" =>
      match at_ line (i + 1) with
      | "E" =>
          match at_ line (i + 2) with
          | "G" => (DEG, i + 3, [])
          | _ => rollback line (i + 3) 3
          end
      | _ => rollback line (i + 2) 2
      end
  | "T" =>
      match at_ line (i + 1) with
      | "A" =>
          match at_ line (i + 2) with
          | "N" => (TAN, i + 3, [])
          | _ => rollback line (i + 3) 3
          end
      | _ => rollback line (i + 2) 2
      end
  | _ => rollback line (i + 1) 1
  end.

Close Scope char_scope.

(** ** The C mathematics library

    [std::sqrt] and the arithmetic operators are computed by [F]; the
    functions below are known through their interface only. *)

Class LibM : Type := {
  sin : float -> float;
  cos : float -> float;
  tan : float -> float;
  asin : float -> float;
  acos : float -> float;
  atan : float -> float;
  pow : float -> float -> float;
  remainder : float -> float -> float
}.

(** ** [skip_ws] *)

(** [std::isspace] in the C locale: space, and the controls 9 to 13. *)
Definition isspace (c : ascii) : bool :=
  let n := nat_of_ascii c in
  (n =? 32) || ((9 <=? n) && (n <=? 13)).

Fixpoint skip_ws_loop (fuel : nat) (line : line_t) (i : nat) : nat :=
  match fuel with
  | O => i
  | S fuel' =>
      if (i <? length line) && isspace (at_ line i)
      then skip_ws_loop fuel' line (i + 1)
      else i
  end.

Definition skip_ws (line : line_t) (i : nat) : nat :=
  skip_ws_loop (length line - i) line i.

(** ** [parse_arg] *)

(** The local variables of [parse_arg], with the cursor [i]. *)
Record pstate : Type := {
  res : float;
  count : nat;
  good : bool;
  integer : bool;
  fraction : float;
  pos : nat
}.

(** [line[i] - '0'], converted to [double]. *)
Definition digit_value (c : ascii) : float :=
  F.of_Z (Z.of_nat (nat_of_ascii c) - 48).

Definition ten : float := F.of_Z 10.

Definition on_digit (c : ascii) (st : pstate) : pstate :=
  if integer st
  then {| res := F.add (F.mul (res st) ten) (digit_value c);
          count := count st + 1;
          good := good st;
          integer := integer st;
          fraction := fraction st;
          pos := pos st + 1 |}
  else let fraction' := F.div (fraction st) ten in
       {| res := F.add (res st) (F.mul (digit_value c) fraction');
          count := count st + 1;
          good := good st;
          integer := integer st;
          fraction := fraction';
          pos := pos st + 1 |}.

Definition on_dot (st : pstate) : pstate :=
  {| res := res st; count := count st; good := good st;
     integer := false;
     fraction := fraction st; pos := pos st + 1 |}.

Definition on_other (st : pstate) : pstate :=
  {| res := res st; count := count st;
     good := false;
     integer := integer st; fraction := fraction st; pos := pos st |}.

Open Scope char_scope.

(** The [switch] inside the loop. *)
Definition loop_body (line : line_t) (st : pstate) : pstate :=
  match at_ line (pos st) with
  | "0" | "1" | "2" | "3" | "4" | "5" | "6" | "7" | "8" | "9" =>
      on_digit (at_ line (pos st)) st
  | "." => on_dot st
  | _ => on_other st
  end.

Close Scope char_scope.

(** [good && i < line.size() && count < max_decimal_digits] *)
Definition loop_cond (line : line_t) (st : pstate) : bool :=
  good st && (pos st <? length line) && (count st <? max_decimal_digits).

Fixpoint parse_loop (fuel : nat) (line : line_t) (st : pstate) : pstate :=
  match fuel with
  | O => st
  | S fuel' =>
      if loop_cond line st
      then parse_loop fuel' line (loop_body line st)
      else st
  end.

Definition parse_init (i : nat) : pstate :=
  {| res := F.of_Z 0; count := 0; good := true; integer := true;
     fraction := F.of_Z 1; pos := i |}.

(** Every iteration but the last moves the cursor, and the last one clears
    [good]: [length line + 1] iterations are enough (lemma
    [parse_loop_stops]). *)
Definition parse_fuel (line : line_t) : nat := S (length line).

Definition parse_arg (line : line_t) (i : nat) : float * nat * list Diag :=
  let st := parse_loop (parse_fuel line) line (parse_init i) in
  (res st, pos st,
   if pos st <? length line then [Suffix_left (substr line (pos st))] else []).

(** ** The evaluator *)

Section Evaluator.

Context {M : LibM}.

Definition ctn (current : float) : float :=
  F.div (F.of_Z 1) (tan current).

Definition actn (current : float) : float :=
  let angle := atan (F.div (F.of_Z 1) current) in
  if F.lt angle (F.of_Z 0) then F.add angle M_PI else angle.

Definition to_radians (angle : float) (rad_on : bool) : float :=
  if rad_on then angle else F.mul (F.div angle (F.of_Z 180)) M_PI.

Definition to_degrees (angle : float) (rad_on : bool) : float :=
  if rad_on then angle else F.div (F.mul angle (F.of_Z 180)) M_PI.

Definition nullary (current : float) (op : Op) (rad_on : bool)
  : float * bool :=
  match op with
  | ERR => (current, rad_on)
  | RAD => (current, true)
  | DEG => (current, false)
  | _ => (current, rad_on)
  end.

Definition unary (current : float) (op : Op) (rad_on : bool)
  : float * list Diag :=
  match op with
  | NEG => (F.opp current, [])
  | SQRT =>
      if F.gt current (F.of_Z 0)
      then (F.sqrt current, [])
      else (current, [Bad_SQRT current])
  | SIN => (sin (to_radians current rad_on), [])
  | COS => (cos (to_radians current rad_on), [])
  | TAN =>
      if F.gt (F.abs (cos (to_radians current rad_on))) eps
      then (tan (to_radians current rad_on), [])
      else (inf, [])
  | CTN =>
      if F.gt (F.abs (sin (to_radians current rad_on))) eps
      then (ctn (to_radians current rad_on), [])
      else (INFINITY, [])
  | ASIN =>
      if F.le (F.abs current) (F.of_Z 1)
      then (to_degrees (asin current) rad_on, [])
      else (INFINITY, [Bad_ASIN current])
  | ACOS =>
      if F.le (F.abs current) (F.of_Z 1)
      then (to_degrees (acos current) rad_on, [])
      else (current, [Bad_ACOS current])
  | ATAN =>
      if F.lt (F.abs current) (F.div M_PI (F.of_Z 2))
      then (to_degrees (atan current) rad_on, [])
      else (current, [Bad_ATAN current])
  | ACTN =>
      if F.lt (F.of_Z 0) (F.abs current) && F.lt (F.abs current) M_PI
      then (to_degrees (actn current) rad_on, [])
      else (current, [Bad_ACTN current])
  | _ => (current, [])
  end.

Definition binary (op : Op) (left right : float) : float * list Diag :=
  match op with
  | SET => (right, [])
  | ADD => (F.add left right, [])
  | SUB => (F.sub left right, [])
  | MUL => (F.mul left right, [])
  | DIV =>
      if F.neq right (F.of_Z 0)
      then (F.div left right, [])
      else (left, [Bad_division right])
  | REM =>
      if F.neq right (F.of_Z 0)
      then (remainder left right, [])
      else (left, [Bad_remainder right])
  | POW => (pow left right, [])
  | _ => (left, [])
  end.

(** ** [process_line]

    The result is the returned value, [rad_on] after the call, and what
    was written to [std::cerr]. *)
Definition process_line (current : float) (rad_on : bool) (line : line_t)
  : float * bool * list Diag :=
  let '(op, i, d0) := parse_op line 0 in
  match arity op with
  | 0 =>
      let '(r, rad_on') := nullary current op rad_on in
      (r, rad_on', d0)
  | 1 =>
      let '(r, d1) := unary current op rad_on in
      (r, rad_on, d0 ++ d1)
  | 2 =>
      let i := skip_ws line i in
      let '(arg, _, d1) := parse_arg line i in
      let '(r, d2) := binary op current arg in
      (r, rad_on, d0 ++ d1 ++ d2)
  | _ => (current, rad_on, d0)
  end.

(** ** The loop of [main]

    One [process_line] per line read; the values printed to [std::cout]
    are collected in order. *)
Record session : Type := {
  current : float;
  rad_on : bool;
  printed : list float;
  cerr : list Diag
}.

Definition main_init : session :=
  {| current := F.of_Z 0; rad_on := false; printed := []; cerr := [] |}.

Definition main_step (s : session) (line : line_t) : session :=
  let '(c, m, d) := process_line (current s) (rad_on s) line in
  {| current := c; rad_on := m;
     printed := printed s ++ [c]; cerr := cerr s ++ d |}.

Definition main_from (s : session) (lines : list line_t) : session :=
  fold_left main_step lines s.

Definition main (lines : list line_t) : session :=
  main_from main_init lines.

End Evaluator.

(** * Auxiliary definitions *)

(** ** Characters *)

Definition is_digit (c : ascii) : bool :=
  let n := nat_of_ascii c in (48 <=? n) && (n <=? 57).

Definition is_dot (c : ascii) : bool := Ascii.eqb c "."%char.

Inductive char_class : Type := Digit | Dot | Other.

Definition classify (c : ascii) : char_class :=
  if is_digit c then Digit else if is_dot c then Dot else Other.

(** ** The loop of [parse_arg], by recursion on the unread characters

    [scan l st] runs the loop from a state whose [good] is set, [l] being
    the characters from the cursor to the end of the line. *)
Fixpoint scan (l : list ascii) (st : pstate) : pstate :=
  match l with
  | [] => st
  | c :: l' =>
      if count st <? max_decimal_digits then
        match classify c with
        | Digit => scan l' (on_digit c st)
        | Dot => scan l' (on_dot st)
        | Other => on_other st
        end
      else st
  end.

Definition count_digits (l : list ascii) : nat :=
  length (filter is_digit l).

(** The characters of [line] between two cursors. *)
Definition between (line : line_t) (i j : nat) : line_t :=
  firstn (j - i) (skipn i line).

(** [k] is the position of a dot that [parse_arg], started at cursor [i],
    meets after an earlier dot: the characters from [i] to [k] are digits
    and dots, with a dot and fewer than ten digits among them. *)
Definition later_dot_at (line : line_t) (i k : nat) : bool :=
  (i <=? k) && (k <? length line) && is_dot (at_ line k)
  && forallb (fun c => is_digit c || is_dot c) (between line i k)
  && existsb is_dot (between line i k)
  && (count_digits (between line i k) <? max_decimal_digits).

(** The number of dots between two cursors. *)
Definition dots_between (line : line_t) (i k : nat) : nat :=
  length (filter is_dot (between line i k)).

(** [line] without its character at position [k]. *)
Definition remove_at (k : nat) (line : line_t) : line_t :=
  firstn k line ++ skipn (S k) line.

(** ** The tokens of the recognizer, as the specification lists them *)

Definition symbols : list (string * Op) :=
  [("+", ADD); ("-", SUB); ("*", MUL); ("/", DIV); ("%", REM);
   ("_", NEG); ("^", POW)]%string.

Definition mnemonics : list (string * Op) :=
  [("RAD", RAD); ("DEG", DEG); ("SQRT", SQRT); ("SIN", SIN); ("COS", COS);
   ("TAN", TAN); ("CTN", CTN); ("ASIN", ASIN); ("ACOS", ACOS);
   ("ATAN", ATAN); ("ACTN", ACTN)]%string.

Fixpoint starts_with (tok line : list ascii) : bool :=
  match tok, line with
  | [], _ => true
  | _ :: _, [] => false
  | a :: tok', b :: line' => Ascii.eqb a b && starts_with tok' line'
  end.

(** The first token of the table that the line starts with. *)
Definition lookup (table : list (string * Op)) (line : line_t)
  : option (string * Op) :=
  find (fun t => starts_with (str (fst t)) line) table.

(** The line starts with a symbol, a mnemonic or a digit. *)
Definition recognized (line : line_t) : bool :=
  is_digit (at_ line 0)
  || match lookup (symbols ++ mnemonics) line with
     | Some _ => true
     | None => false
     end.

(** The angle mode that the last [RAD] or [DEG] line of [lines] selects,
    [m] if there is none. *)
Definition last_toggle (m : bool) (lines : list line_t) : bool :=
  fold_left
    (fun m line =>
       if starts_with (str "RAD") line then true
       else if starts_with (str "DEG") line then false
       else m)
    lines m.

(** The same state one character further. *)
Definition shift (st : pstate) : pstate :=
  {| res := res st; count := count st; good := good st;
     integer := integer st; fraction := fraction st; pos := pos st + 1 |}.

(** ** Reading the results of [process_line] *)

Definition value_of (r : float * bool * list Diag) : float := fst (fst r).
Definition mode_of (r : float * bool * list Diag) : bool := snd (fst r).
Definition diags_of (r : float * bool * list Diag) : list Diag := snd r.

(** The operation that [parse_op] resolves a line to. *)
Definition op_of (line : line_t) : Op := fst (fst (parse_op line 0)).

Definition is_suffix_diag (d : Diag) : bool :=
  match d with Suffix_left _ => true | _ => false end.

(** ** A fragment of the C mathematics library

    The results that Annex F of the C standard fixes at special arguments
    (signed zeros, one, the infinities, NaN), the correctly rounded
    results at the doubles [M_PI / 2] and [M_PI] and of [atan] at 1, and
    the remainder, which IEEE 754 defines exactly.  Outside these arguments the fragment
    answers NaN.  The theorems below hold for every [LibM];
    the fragment serves to run the model on lines whose evaluation stays
    inside it. *)
Module Fragment.

Definition one : float := F.of_Z 1.
Definition half_pi : float := F.div M_PI (F.of_Z 2).

(** cos(M_PI / 2) = 6.123233995736766e-17 *)
Definition cos_half_pi : float := S754_finite false 4967757600021511 (-106).

(** sin(M_PI) = 1.2246467991473532e-16 *)
Definition sin_pi : float := S754_finite false 4967757600021511 (-105).

(** sin(+-0) = +-0, sin(+-inf) = NaN. *)
Definition sin_fr (x : float) : float :=
  match x with
  | S754_zero _ => x
  | S754_finite _ _ _ =>
      if SFeqb x half_pi then one
      else if SFeqb x M_PI then sin_pi
      else F.nan
  | _ => F.nan
  end.

(** cos(+-0) = 1, cos(+-inf) = NaN. *)
Definition cos_fr (x : float) : float :=
  match x with
  | S754_zero _ => one
  | S754_finite _ _ _ =>
      if SFeqb x half_pi then cos_half_pi
      else if SFeqb x M_PI then F.opp one
      else F.nan
  | _ => F.nan
  end.

(** tan(+-0) = +-0, tan(+-inf) = NaN; tan(M_PI / 2) = 16331239353195370. *)
Definition tan_fr (x : float) : float :=
  match x with
  | S754_zero _ => x
  | S754_finite _ _ _ =>
      if SFeqb x half_pi then F.of_Z 16331239353195370 else F.nan
  | _ => F.nan
  end.

(** asin(+-0) = +-0, asin(1) = pi/2. *)
Definition asin_fr (x : float) : float :=
  match x with
  | S754_zero _ => x
  | _ => if SFeqb x one then half_pi else F.nan
  end.

(** acos(1) = +0, acos(+-0) = pi/2. *)
Definition acos_fr (x : float) : float :=
  match x with
  | S754_zero _ => half_pi
  | _ => if SFeqb x one then F.zero else F.nan
  end.

(** atan(+-0) = +-0, atan(+-inf) = +-pi/2; atan(1) = pi/4, which is
    [M_PI / 4] correctly rounded. *)
Definition atan_fr (x : float) : float :=
  match x with
  | S754_zero _ => x
  | S754_infinity s => if s then F.opp half_pi else half_pi
  | _ => if SFeqb x one then F.div M_PI (F.of_Z 4) else F.nan
  end.

(** pow(x, +-0) = 1 for every x, pow(1, y) = 1 for every y. *)
Definition pow_fr (x y : float) : float :=
  match y with
  | S754_zero _ => one
  | _ => if SFeqb x one then one else F.nan
  end.

(** IEEE 754 remainder, which is exact: [x - n * y] with [n] the integer
    nearest to [x / y], the even one on a tie.  On the magnitudes
    [mx * 2^ex] and [my * 2^ey], brought to the exponent [e]: *)
Definition remainder_core (mx : positive) (ex : Z) (my : positive) (ey : Z)
  : Z * Z :=
  let e := Z.min ex ey in
  let X := Z.shiftl (Zpos mx) (ex - e) in
  let Y := Z.shiftl (Zpos my) (ey - e) in
  let q := (X / Y)%Z in
  let r := (X mod Y)%Z in
  let up :=
    match (2 * r ?= Y)%Z with
    | Lt => false
    | Gt => true
    | Eq => Z.odd q
    end in
  (if up then (r - Y)%Z else r, e).

(** remainder(x, +-inf) = x for finite x; remainder(+-0, y) = +-0 for
    y other than zero; NaN for infinite x or zero y. *)
Definition remainder_fr (x y : float) : float :=
  match x, y with
  | S754_zero _, S754_finite _ _ _ => x
  | S754_zero _, S754_infinity _ => x
  | S754_finite _ _ _, S754_infinity _ => x
  | S754_finite sx mx ex, S754_finite _ my ey =>
      let '(r, e) := remainder_core mx ex my ey in
      binary_normalize F.prec F.emax (if sx then (- r)%Z else r) e sx
  | _, _ => F.nan
  end.

Definition libm : LibM :=
  {| sin := sin_fr; cos := cos_fr; tan := tan_fr;
     asin := asin_fr; acos := acos_fr; atan := atan_fr;
     pow := pow_fr; remainder := remainder_fr |}.

End Fragment.

(** ** Definitions for the further properties *)

(** The number of whitespace characters at the head of a list. *)
Fixpoint leading_spaces (l : list ascii) : nat :=
  match l with
  | c :: l' => if isspace c then S (leading_spaces l') else 0
  | [] => 0
  end.

(** The same state [n] characters further. *)
Definition move (n : nat) (st : pstate) : pstate :=
  {| res := res st; count := count st; good := good st;
     integer := integer st; fraction := fraction st; pos := pos st + n |}.

(** A diagnostic of a failed recognition or of a rejected operand. *)
Definition is_failure_diag (d : Diag) : bool :=
  match d with Suffix_left _ => false | _ => true end.

(** The operations that read or produce an angle. *)
Definition uses_angle (op : Op) : bool :=
  match op with
  | SIN | COS | TAN | CTN | ASIN | ACOS | ATAN | ACTN => true
  | _ => false
  end.

(** Sign bit clear and not NaN: +0, a positive finite number or
    +infinity. *)
Definition nonneg (x : float) : bool :=
  match x with
  | S754_zero false | S754_infinity false | S754_finite false _ _ => true
  | _ => false
  end.

(** The weight [fraction] after [k] fractional digits: 1 divided [k]
    times by ten. *)
Fixpoint frac (k : nat) : float :=
  match k with
  | O => F.of_Z 1
  | S k' => F.div (frac k') ten
  end.

(** * Properties *)

(** ** The constants are the doubles the compiler produces

    A decimal literal denotes the double nearest to it: the distance
    between [m * 2^e] and the literal is at most half a unit in the last
    place, [2^(e-1)]. *)

Lemma eps_is_1e_10 :
  F.div (F.of_Z 1) (F.of_Z (10 ^ 10)) = eps
  /\ (2 * Z.abs (7737125245533627 * 10 ^ 10 - 2 ^ 86) <= 10 ^ 10)%Z.
Proof. split; [vm_compute; reflexivity | vm_compute; discriminate]. Qed.

Lemma inf_is_16331239353195370 : F.of_Z 16331239353195370 = inf.
Proof. vm_compute; reflexivity. Qed.

Lemma M_PI_nearest :
  (2 * Z.abs (7074237752028440 * 10 ^ 20 - 314159265358979323846 * 2 ^ 51)
   <= 10 ^ 20)%Z.
Proof. vm_compute; discriminate. Qed.

Lemma inf_is_finite : F.is_finite inf = true /\ inf <> INFINITY.
Proof. split; [reflexivity | discriminate]. Qed.

(** ** Characters *)

Ltac split_char c := destruct c as [[] [] [] [] [] [] [] []].

Lemma loop_body_classify (line : line_t) (st : pstate) :
  loop_body line st =
  match classify (at_ line (pos st)) with
  | Digit => on_digit (at_ line (pos st)) st
  | Dot => on_dot st
  | Other => on_other st
  end.
Proof.
  unfold loop_body.
  generalize (on_digit (at_ line (pos st)) st).
  generalize (at_ line (pos st)).
  intros c p; split_char c; reflexivity.
Qed.

Lemma digit_not_space (c : ascii) : is_digit c = true -> isspace c = false.
Proof.
  unfold is_digit, isspace. generalize (nat_of_ascii c); intros n H.
  apply andb_true_iff in H as [H1 H2].
  apply Nat.leb_le in H1. apply Nat.leb_le in H2.
  apply orb_false_iff; split.
  - apply Nat.eqb_neq; lia.
  - apply andb_false_iff; right. apply Nat.leb_gt; lia.
Qed.

Lemma is_dot_eq (c : ascii) : is_dot c = true -> c = "."%char.
Proof. apply Ascii.eqb_eq. Qed.

(** ** The recognizer against the token table *)

Ltac next_char l l' :=
  let c := fresh "c" in
  destruct l as [| c l']; [reflexivity |];
  split_char c; try reflexivity.

(** [parse_op] from cursor 0 resolves a leading digit to [SET] with the
    cursor back at 0, a leading token of the table to its operation with
    the cursor after the token, and fails on everything else with one
    diagnostic and the cursor back at 0. *)
Lemma parse_op_lookup (line : line_t) :
  parse_op line 0 =
  if is_digit (at_ line 0) then (SET, 0, [])
  else match lookup (symbols ++ mnemonics) line with
       | Some (tok, op) => (op, String.length tok, [])
       | None => (ERR, 0, [Unknown_operation line])
       end.
Proof.
  next_char line l1; next_char l1 l2; next_char l2 l3; next_char l3 l4.
Qed.

(** ** [skip_ws] terminates within its fuel *)

Lemma skip_ws_loop_stops (fuel : nat) (line : line_t) (i : nat) :
  length line - i <= fuel ->
  let j := skip_ws_loop fuel line i in
  (j <? length line) && isspace (at_ line j) = false.
Proof.
  revert i; induction fuel as [| fuel IH]; intros i Hf; simpl.
  - replace (i <? length line) with false; [reflexivity |].
    symmetry; apply Nat.ltb_ge; lia.
  - destruct ((i <? length line) && isspace (at_ line i)) eqn:E.
    + apply IH. apply andb_true_iff in E as [E _].
      apply Nat.ltb_lt in E. lia.
    + exact E.
Qed.

Lemma skip_ws_stops (line : line_t) (i : nat) :
  (skip_ws line i <? length line) && isspace (at_ line (skip_ws line i))
  = false.
Proof. apply skip_ws_loop_stops; lia. Qed.

Lemma skip_ws_not_space (line : line_t) (i : nat) :
  i < length line -> isspace (at_ line i) = false -> skip_ws line i = i.
Proof.
  intros Hi Hs. unfold skip_ws.
  destruct (length line - i) as [| f] eqn:E; [lia |].
  simpl. rewrite Hs, andb_false_r. reflexivity.
Qed.

(** ** [parse_arg]: the loop stops within its fuel, and is [scan] *)

Lemma on_digit_fields (c : ascii) (st : pstate) :
  pos (on_digit c st) = pos st + 1
  /\ count (on_digit c st) = count st + 1
  /\ good (on_digit c st) = good st
  /\ integer (on_digit c st) = integer st.
Proof. unfold on_digit; destruct (integer st); simpl; auto. Qed.

Lemma skipn_at (line : line_t) (i : nat) :
  i < length line -> skipn i line = at_ line i :: skipn (S i) line.
Proof.
  revert i; induction line as [| c line IH]; intros i Hi; simpl in *.
  - lia.
  - destruct i as [| i]; [reflexivity |].
    unfold at_; simpl. apply IH. lia.
Qed.

Lemma parse_loop_scan (fuel : nat) (line : line_t) (st : pstate) :
  good st = true ->
  length line - pos st < fuel ->
  parse_loop fuel line st = scan (skipn (pos st) line) st.
Proof.
  revert st; induction fuel as [| fuel IH]; intros st Hg Hf; [lia |].
  simpl. unfold loop_cond. rewrite Hg; simpl.
  destruct (pos st <? length line) eqn:Hp; simpl.
  - apply Nat.ltb_lt in Hp.
    rewrite (skipn_at line (pos st) Hp); simpl.
    destruct (count st <? max_decimal_digits); [| reflexivity].
    rewrite loop_body_classify.
    destruct (on_digit_fields (at_ line (pos st)) st) as (Dp & _ & Dg & _).
    destruct (classify (at_ line (pos st))).
    + rewrite IH; [rewrite Dp, Nat.add_1_r; reflexivity | congruence | lia].
    + rewrite IH; simpl; [rewrite Nat.add_1_r; reflexivity | assumption | lia].
    + destruct fuel; simpl; [reflexivity |].
      unfold loop_cond; reflexivity.
  - apply Nat.ltb_ge in Hp. rewrite skipn_all2 by assumption. reflexivity.
Qed.

(** The loop of [parse_arg] runs to the point where its condition fails:
    the fuel of [parse_arg] never runs out. *)
Lemma parse_loop_stops (line : line_t) (i : nat) :
  loop_cond line (parse_loop (parse_fuel line) line (parse_init i)) = false.
Proof.
  unfold parse_fuel.
  assert (G : forall fuel st, length line + (if good st then 1 else 0)
                              - pos st <= fuel ->
              loop_cond line (parse_loop fuel line st) = false).
  { induction fuel as [| fuel IH]; intros st Hf; simpl.
    - unfold loop_cond. destruct (good st); [| reflexivity]. simpl.
      replace (pos st <? length line) with false; [reflexivity |].
      symmetry; apply Nat.ltb_ge; lia.
    - destruct (loop_cond line st) eqn:E; [| exact E].
      apply IH. unfold loop_cond in E.
      apply andb_true_iff in E as [E _]. apply andb_true_iff in E as [Eg Ep].
      apply Nat.ltb_lt in Ep. rewrite Eg in Hf.
      rewrite loop_body_classify.
      destruct (on_digit_fields (at_ line (pos st)) st) as (Dp & _ & Dg & _).
      destruct (classify (at_ line (pos st))).
      + rewrite Dp, Dg, Eg. lia.
      + simpl. rewrite Eg. lia.
      + simpl. lia. }
  apply G. simpl. lia.
Qed.

Lemma parse_arg_scan (line : line_t) (i : nat) :
  parse_arg line i =
  let st := scan (skipn i line) (parse_init i) in
  (res st, pos st,
   if pos st <? length line then [Suffix_left (substr line (pos st))] else []).
Proof.
  unfold parse_arg, parse_fuel.
  rewrite parse_loop_scan; [reflexivity | reflexivity | simpl; lia].
Qed.

(** ** What [scan] consumes *)

Lemma classify_digit (c : ascii) : classify c = Digit <-> is_digit c = true.
Proof.
  unfold classify; destruct (is_digit c); [| destruct (is_dot c)];
    split; congruence.
Qed.

Lemma classify_dot (c : ascii) : classify c = Dot -> c = "."%char.
Proof.
  unfold classify; destruct (is_digit c); [discriminate |].
  destruct (is_dot c) eqn:E; [intros _; apply is_dot_eq, E | discriminate].
Qed.

Lemma classify_dot_char : classify "."%char = Dot.
Proof. reflexivity. Qed.

Lemma count_digits_cons (c : ascii) (l : list ascii) :
  count_digits (c :: l) =
  (if is_digit c then 1 else 0) + count_digits l.
Proof. unfold count_digits; simpl; destruct (is_digit c); reflexivity. Qed.

Lemma count_digits_app (a b : list ascii) :
  count_digits (a ++ b) = count_digits a + count_digits b.
Proof.
  unfold count_digits. rewrite filter_app, length_app. reflexivity.
Qed.

(** The shape of a run of [scan]: it reads [k] characters, all of them
    digits or dots, counts the digits among them, never lets [count] pass
    a bound it started under, and stops at the end of the line, on an
    exhausted budget or in front of a character that is neither digit nor
    dot.  The unread characters play no part in the value. *)
Lemma scan_inv (l : list ascii) (st : pstate) :
  exists k,
    k <= length l
    /\ pos (scan l st) = pos st + k
    /\ count (scan l st) = count st + count_digits (firstn k l)
    /\ (count st <= max_decimal_digits ->
        count (scan l st) <= max_decimal_digits)
    /\ Forall (fun c => classify c <> Other) (firstn k l)
    /\ (res (scan (firstn k l) st) = res (scan l st)
        /\ pos (scan (firstn k l) st) = pos (scan l st))
    /\ (k = length l
        \/ max_decimal_digits <= count (scan l st)
        \/ classify (nth k l zero) = Other)
    /\ (forall p, p < k ->
        count st + count_digits (firstn p l) < max_decimal_digits).
Proof.
  revert st; induction l as [| c l IH]; intros st.
  - exists 0; simpl. repeat split; auto; lia.
  - simpl scan. destruct (count st <? max_decimal_digits) eqn:Hc.
    + apply Nat.ltb_lt in Hc.
      destruct (classify c) eqn:Hk.
      * destruct (IH (on_digit c st)) as (k & Hk1 & Hk2 & Hk3 & Hk4 & Hk5 & (Hk6 & Hk6') & Hk7 & Hk8).
        destruct (on_digit_fields c st) as (Dp & Dc & _ & _).
        exists (S k). simpl firstn. simpl scan.
        rewrite (proj2 (Nat.ltb_lt _ _) Hc), Hk, count_digits_cons.
        rewrite (proj1 (classify_digit c) Hk).
        repeat split.
        -- simpl; lia.
        -- lia.
        -- lia.
        -- intros _. apply Hk4. lia.
        -- constructor; [congruence | assumption].
        -- assumption.
        -- assumption.
        -- simpl. destruct Hk7 as [-> | [H | H]]; auto.
        -- intros [| p] Hp; simpl firstn.
           ++ unfold count_digits; simpl; lia.
           ++ rewrite count_digits_cons, (proj1 (classify_digit c) Hk).
              specialize (Hk8 p). lia.
      * destruct (IH (on_dot st)) as (k & Hk1 & Hk2 & Hk3 & Hk4 & Hk5 & (Hk6 & Hk6') & Hk7 & Hk8).
        exists (S k). simpl firstn. simpl scan.
        rewrite (proj2 (Nat.ltb_lt _ _) Hc), Hk, count_digits_cons.
        assert (Hd : is_digit c = false).
        { destruct (is_digit c) eqn:E; [| reflexivity].
          apply classify_digit in E. congruence. }
        rewrite Hd. simpl in Hk2, Hk3, Hk4 |- *.
        repeat split.
        -- lia.
        -- lia.
        -- lia.
        -- intros _. apply Hk4. lia.
        -- constructor; [congruence | assumption].
        -- assumption.
        -- assumption.
        -- destruct Hk7 as [-> | [H | H]]; auto.
        -- intros [| p] Hp; simpl firstn.
           ++ unfold count_digits; simpl; lia.
           ++ rewrite count_digits_cons, Hd.
              specialize (Hk8 p). simpl in Hk8 |- *. lia.
      * exists 0; simpl. repeat split; auto; lia.
    + apply Nat.ltb_ge in Hc.
      exists 0; simpl. repeat split; auto; lia.
Qed.

(** A prefix of digits and dots that fits in the budget is read whole. *)
Lemma scan_app (a b : list ascii) (st : pstate) :
  Forall (fun c => classify c <> Other) a ->
  count st + count_digits a < max_decimal_digits ->
  scan (a ++ b) st = scan b (scan a st)
  /\ pos (scan a st) = pos st + length a
  /\ count (scan a st) = count st + count_digits a
  /\ good (scan a st) = good st
  /\ integer (scan a st) = integer st && negb (existsb is_dot a).
Proof.
  revert st; induction a as [| c a IH]; intros st Ha Hc.
  - simpl. rewrite andb_true_r.
    repeat split; try reflexivity; unfold count_digits; simpl; lia.
  - inversion Ha as [| ? ? Hx Ha']; subst.
    rewrite count_digits_cons in Hc.
    simpl app. simpl scan.
    replace (count st <? max_decimal_digits) with true
      by (symmetry; apply Nat.ltb_lt; lia).
    destruct (on_digit_fields c st) as (Dp & Dc & Dg & Di).
    destruct (classify c) eqn:Hk; [| | congruence].
    + rewrite (proj1 (classify_digit c) Hk) in Hc.
      destruct (IH (on_digit c st) Ha') as (E1 & E2 & E3 & E4 & E5); [lia |].
      rewrite count_digits_cons, (proj1 (classify_digit c) Hk).
      assert (Hnd : is_dot c = false).
      { unfold classify in Hk. destruct (is_dot c) eqn:E; [| reflexivity].
        apply is_dot_eq in E; subst c. discriminate. }
      simpl existsb. rewrite Hnd. simpl.
      repeat split; [assumption | lia | lia | congruence | congruence].
    + assert (Hd : is_digit c = false).
      { destruct (is_digit c) eqn:E; [| reflexivity].
        apply classify_digit in E. congruence. }
      rewrite Hd in Hc.
      destruct (IH (on_dot st) Ha') as (E1 & E2 & E3 & E4 & E5);
        [simpl; lia |].
      rewrite count_digits_cons, Hd.
      simpl in E2, E3, E4, E5.
      simpl existsb. rewrite (classify_dot c Hk). simpl.
      rewrite andb_false_r.
      repeat split; [assumption | simpl; lia | lia | assumption | assumption].
Qed.

(** Moving the start cursor moves the final cursor and nothing else. *)
Lemma scan_shift (l : list ascii) (st : pstate) :
  scan l (shift st) = shift (scan l st).
Proof.
  revert st; induction l as [| c l IH]; intros st; [reflexivity |].
  simpl. change (count (shift st)) with (count st).
  destruct (count st <? max_decimal_digits); [| reflexivity].
  destruct (classify c).
  - replace (on_digit c (shift st)) with (shift (on_digit c st));
      [apply IH |].
    unfold on_digit, shift; simpl. destruct (integer st); reflexivity.
  - change (on_dot (shift st)) with (shift (on_dot st)). apply IH.
  - reflexivity.
Qed.

Lemma on_dot_fraction_mode (st : pstate) :
  integer st = false -> on_dot st = shift st.
Proof.
  destruct st as [r c g i f p]; simpl; intros ->; reflexivity.
Qed.

(** ** Comparisons *)

Lemma le_zero_not_gt (x : float) :
  F.le x (F.of_Z 0) = true -> F.gt x (F.of_Z 0) = false.
Proof. destruct x as [s | s | | s m e]; try destruct s; cbv; congruence. Qed.

Lemma SFcompare_antisym (x y : float) :
  SFcompare y x = option_map CompOpp (SFcompare x y).
Proof.
  destruct x as [sx | sx | | sx mx ex], y as [sy | sy | | sy my ey];
    try destruct sx; try destruct sy; try reflexivity;
    simpl; rewrite (Z.compare_antisym ex ey);
    destruct (ex ?= ey)%Z; simpl; try reflexivity;
    rewrite (Pos.compare_cont_antisym mx my Eq); simpl;
    destruct (Pos.compare_cont Eq mx my); reflexivity.
Qed.

Lemma le_not_gt (x y : float) : F.le x y = true -> F.gt x y = false.
Proof.
  unfold F.le, F.gt, SFleb, SFltb. rewrite (SFcompare_antisym x y).
  destruct (SFcompare x y) as [[] |]; simpl; congruence.
Qed.

(** A comparison with a NaN operand is false. *)
Lemma nan_not_le (y : float) : F.le F.nan y = false.
Proof. reflexivity. Qed.

Lemma nan_not_gt (y : float) : F.gt F.nan y = false.
Proof. destruct y; reflexivity. Qed.

Section EvaluatorProperties.

Context {M : LibM}.

(** ** The guarded operations of [unary] and [binary] *)

(** C3, as the code has it.  Tangent returns [tan] of the angle in
    radians when the absolute value of its cosine is greater than [eps],
    and the finite constant [inf] = 16331239353195370 in every other
    case: when it is at most [eps], and also when the cosine is NaN.
    Cotangent returns [1 / tan] when the absolute value of the sine is
    greater than [eps], and IEEE positive infinity in every other case.
    Neither writes a diagnostic. *)
Theorem C3_tangent_cotangent_guards (current : float) (rad_on : bool) :
  let r := to_radians current rad_on in
  (F.gt (F.abs (cos r)) eps = true -> unary current TAN rad_on = (tan r, []))
  /\ (F.gt (F.abs (cos r)) eps = false -> unary current TAN rad_on = (inf, []))
  /\ (F.le (F.abs (cos r)) eps = true -> unary current TAN rad_on = (inf, []))
  /\ (F.is_nan (cos r) = true -> unary current TAN rad_on = (inf, []))
  /\ inf = F.of_Z 16331239353195370
  /\ F.is_finite inf = true
  /\ (F.gt (F.abs (sin r)) eps = true ->
      unary current CTN rad_on = (F.div (F.of_Z 1) (tan r), []))
  /\ (F.gt (F.abs (sin r)) eps = false ->
      unary current CTN rad_on = (INFINITY, []))
  /\ (F.le (F.abs (sin r)) eps = true ->
      unary current CTN rad_on = (INFINITY, []))
  /\ INFINITY = S754_infinity false.
Proof.
  intros r; subst r; cbn [unary ctn].
  repeat split; try reflexivity.
  - intros ->; reflexivity.
  - intros ->; reflexivity.
  - intros H; rewrite (le_not_gt _ _ H); reflexivity.
  - intros H. destruct (cos (to_radians current rad_on)); try discriminate.
    reflexivity.
  - intros ->; reflexivity.
  - intros ->; reflexivity.
  - intros H; rewrite (le_not_gt _ _ H); reflexivity.
Qed.

(** C4.  Square root of a value that is at most zero, division by zero
    and remainder by zero write one diagnostic and return the left
    operand unchanged; with a right operand different from zero the
    remainder is the one of [std::remainder].  The lines [/0] and [%0]
    run into the two zero guards. *)
Theorem C4_sqrt_div_rem_guards (current right : float) (rad_on : bool) :
  (F.le current (F.of_Z 0) = true ->
   unary current SQRT rad_on = (current, [Bad_SQRT current]))
  /\ (F.neq right (F.of_Z 0) = false ->
      binary DIV current right = (current, [Bad_division right]))
  /\ (F.neq right (F.of_Z 0) = false ->
      binary REM current right = (current, [Bad_remainder right]))
  /\ (F.neq right (F.of_Z 0) = true ->
      binary REM current right = (remainder current right, []))
  /\ process_line current rad_on (str "/0")
     = (current, rad_on, [Bad_division (F.of_Z 0)])
  /\ process_line current rad_on (str "%0")
     = (current, rad_on, [Bad_remainder (F.of_Z 0)]).
Proof.
  repeat split; try reflexivity; intros H; cbn [unary binary].
  - rewrite (le_zero_not_gt _ H). reflexivity.
  - rewrite H. reflexivity.
  - rewrite H. reflexivity.
  - rewrite H. reflexivity.
Qed.

(** C5.  Arcsine and arccosine are computed exactly when the absolute
    value of the accumulator is at most one, and the result is converted
    to the active angle unit: returned as it is in radians, multiplied by
    180 and divided by [M_PI] in degrees; otherwise both write a
    diagnostic, arcsine returns IEEE infinity and arccosine returns the
    accumulator. *)
Theorem C5_asin_acos_domain (current : float) (rad_on : bool) :
  (F.le (F.abs current) (F.of_Z 1) = true ->
   unary current ASIN rad_on = (to_degrees (asin current) rad_on, [])
   /\ unary current ACOS rad_on = (to_degrees (acos current) rad_on, []))
  /\ (F.le (F.abs current) (F.of_Z 1) = false ->
      unary current ASIN rad_on = (INFINITY, [Bad_ASIN current])
      /\ unary current ACOS rad_on = (current, [Bad_ACOS current]))
  /\ (F.le (F.abs current) (F.of_Z 1) = true ->
      unary current ASIN true = (asin current, [])
      /\ unary current ASIN false
         = (F.div (F.mul (asin current) (F.of_Z 180)) M_PI, [])
      /\ unary current ACOS true = (acos current, [])
      /\ unary current ACOS false
         = (F.div (F.mul (acos current) (F.of_Z 180)) M_PI, [])).
Proof.
  split; [| split]; intros H; cbn [unary to_degrees]; rewrite H;
    repeat split; reflexivity.
Qed.

(** C6.  Arctangent is computed, and converted to the active angle unit
    (returned as it is in radians, multiplied by 180 and divided by
    [M_PI] in degrees), exactly when the absolute value of the
    accumulator is less than [M_PI / 2]; when it is at least [M_PI / 2],
    and in every other case where the test fails, a diagnostic is written
    and the accumulator is returned. *)
Theorem C6_atan_domain (current : float) (rad_on : bool) :
  (F.lt (F.abs current) (F.div M_PI (F.of_Z 2)) = true ->
   unary current ATAN rad_on = (to_degrees (atan current) rad_on, []))
  /\ (F.le (F.div M_PI (F.of_Z 2)) (F.abs current) = true ->
      unary current ATAN rad_on = (current, [Bad_ATAN current]))
  /\ (F.lt (F.abs current) (F.div M_PI (F.of_Z 2)) = false ->
      unary current ATAN rad_on = (current, [Bad_ATAN current]))
  /\ (F.lt (F.abs current) (F.div M_PI (F.of_Z 2)) = true ->
      unary current ATAN true = (atan current, [])
      /\ unary current ATAN false
         = (F.div (F.mul (atan current) (F.of_Z 180)) M_PI, [])).
Proof.
  split; [| split; [| split]]; intros H; cbn [unary to_degrees].
  - rewrite H; reflexivity.
  - replace (F.lt (F.abs current) (F.div M_PI (F.of_Z 2))) with false;
      [reflexivity |].
    symmetry. exact (le_not_gt _ _ H).
  - rewrite H; reflexivity.
  - rewrite H; split; reflexivity.
Qed.

End EvaluatorProperties.

(** ** [process_line] *)

Lemma digit_nonempty (line : line_t) :
  is_digit (at_ line 0) = true -> 0 < length line.
Proof. destruct line; [discriminate | simpl; lia]. Qed.

Lemma parse_op_diags (line : line_t) :
  existsb is_suffix_diag (snd (parse_op line 0)) = false.
Proof.
  rewrite parse_op_lookup.
  destruct (is_digit (at_ line 0)); [reflexivity |].
  destruct (lookup (symbols ++ mnemonics) line) as [[tok op] |]; reflexivity.
Qed.

(** A line is recognized exactly when [parse_op] does not fail on it. *)
Lemma recognized_iff (line : line_t) :
  recognized line = true <-> op_of line <> ERR.
Proof.
  unfold recognized, op_of. rewrite parse_op_lookup.
  destruct (is_digit (at_ line 0)); cbn [orb fst]; [split; congruence |].
  destruct (lookup (symbols ++ mnemonics) line) as [[tok op] |] eqn:E;
    cbn [fst].
  - split; [intros _ | reflexivity].
    apply find_some in E as [E _]. simpl in E.
    repeat (destruct E as [E | E]; [inversion E; discriminate |]).
    contradiction.
  - split; congruence.
Qed.

(** [RAD] and [DEG] are resolved for exactly the lines that start with
    these mnemonics. *)
Lemma op_of_toggle (line : line_t) :
  (starts_with (str "RAD") line, starts_with (str "DEG") line)
  = (if Op_eq_dec (op_of line) RAD then true else false,
     if Op_eq_dec (op_of line) DEG then true else false).
Proof.
  unfold op_of.
  next_char line l1; next_char l1 l2; next_char l2 l3; next_char l3 l4.
Qed.

Section ProcessLine.

Context {M : LibM}.

Lemma unary_diags (x : float) (op : Op) (m : bool) :
  existsb is_suffix_diag (snd (unary x op m)) = false.
Proof.
  destruct op; cbn [unary];
    repeat match goal with
           | |- context [if ?b then _ else _] => destruct b
           end; reflexivity.
Qed.

Lemma process_line_mode (x : float) (m : bool) (line : line_t) :
  mode_of (process_line x m line) =
  match op_of line with RAD => true | DEG => false | _ => m end.
Proof.
  unfold process_line, op_of, mode_of.
  destruct (parse_op line 0) as [[op i] d0]; cbn [fst snd].
  destruct op; cbn [arity nullary];
    try destruct (parse_arg line (skip_ws line i)) as [[arg j] d1];
    match goal with
    | |- context [unary x ?o m] => destruct (unary x o m)
    | |- context [binary ?o x ?a] => destruct (binary o x a)
    | _ => idtac
    end;
    reflexivity.
Qed.

(** C2.  On a line that starts with no symbol, no mnemonic and no digit,
    [process_line] writes exactly one diagnostic, the one of the
    recognizer, and returns the accumulator and the angle mode as they
    were. *)
Theorem C2_unknown_token (x : float) (m : bool) (line : line_t) :
  recognized line = false ->
  op_of line = ERR
  /\ arity ERR = 0
  /\ process_line x m line = (x, m, [Unknown_operation line]).
Proof.
  unfold recognized, op_of, process_line. intros H.
  apply orb_false_iff in H as [Hd Hl].
  rewrite parse_op_lookup, Hd.
  destruct (lookup (symbols ++ mnemonics) line) as [[tok op] |];
    [discriminate |].
  repeat split.
Qed.

(** C7.  On a line whose first character is a digit, [parse_op] answers
    [SET] with the cursor back on that digit and without a diagnostic,
    whatever follows the digit; [process_line] then returns the value that
    [parse_arg] reads from the start of the line, with the diagnostics of
    [parse_arg] and the angle mode unchanged. *)
Theorem C7_leading_digit_sets (x : float) (m : bool) (line : line_t) :
  is_digit (at_ line 0) = true ->
  parse_op line 0 = (SET, 0, [])
  /\ process_line x m line
     = (fst (fst (parse_arg line 0)), m, snd (parse_arg line 0)).
Proof.
  intros H.
  assert (E : parse_op line 0 = (SET, 0, []))
    by (rewrite parse_op_lookup, H; reflexivity).
  split; [exact E |].
  unfold process_line. rewrite E. cbn [arity].
  rewrite (skip_ws_not_space line 0 (digit_nonempty line H)
             (digit_not_space _ H)).
  destruct (parse_arg line 0) as [[arg j] d1]. cbn [binary fst snd app].
  rewrite app_nil_r. reflexivity.
Qed.

Lemma suffix_diag_only_binary (x : float) (m : bool) (line : line_t) :
  existsb is_suffix_diag (diags_of (process_line x m line)) = true ->
  arity (op_of line) = 2.
Proof.
  intros H. unfold process_line, diags_of, op_of in *.
  pose proof (parse_op_diags line) as Hd.
  destruct (parse_op line 0) as [[op i] d0]. cbn [fst snd] in *.
  destruct op; cbn [arity] in *; try reflexivity; exfalso;
    cbn [nullary snd] in H;
    try (match type of H with
         | context [unary x ?o m] =>
             pose proof (unary_diags x o m) as Hu;
             destruct (unary x o m) as [r d1]
         end;
         cbn [snd] in H, Hu; rewrite existsb_app, Hd, Hu in H);
    try rewrite Hd in H; discriminate.
Qed.

(** C10.  After a symbol or mnemonic of arity 0 or 1 the rest of the line
    is not looked at: the result, the mode and the diagnostics are those
    of the token alone, and no diagnostic about an unread suffix is
    written.  On any line, such a diagnostic is written only when the
    operation has arity 2. *)
Theorem C10_trailing_characters_ignored (x : float) (m : bool) :
  (forall tok op rest,
      In (tok, op) (symbols ++ mnemonics) ->
      arity op <> 2 ->
      op_of (str tok ++ rest) = op
      /\ process_line x m (str tok ++ rest) = process_line x m (str tok)
      /\ existsb is_suffix_diag
           (diags_of (process_line x m (str tok ++ rest))) = false)
  /\ (forall line,
         existsb is_suffix_diag (diags_of (process_line x m line)) = true ->
         arity (op_of line) = 2).
Proof.
  split; [| apply suffix_diag_only_binary].
  intros tok op rest Hin Ha.
  assert (E : op_of (str tok ++ rest) = op
              /\ process_line x m (str tok ++ rest)
                 = process_line x m (str tok)).
  { simpl in Hin.
    repeat (destruct Hin as [Hin | Hin];
            [inversion Hin; subst tok op;
             first [exfalso; apply Ha; reflexivity | split; reflexivity] |]).
    contradiction. }
  destruct E as [E1 E2]. repeat split; [exact E1 | exact E2 |].
  destruct (existsb is_suffix_diag
              (diags_of (process_line x m (str tok ++ rest)))) eqn:E;
    [| reflexivity].
  apply suffix_diag_only_binary in E. rewrite E1 in E. contradiction.
Qed.

End ProcessLine.

(** ** The angle mode across lines *)

Section AngleMode.

Context {M : LibM}.

Lemma process_line_toggle (x : float) (m : bool) (line : line_t) :
  mode_of (process_line x m line) =
  if starts_with (str "RAD") line then true
  else if starts_with (str "DEG") line then false
  else m.
Proof.
  rewrite process_line_mode.
  pose proof (op_of_toggle line) as H.
  pose proof (f_equal fst H) as H1. pose proof (f_equal snd H) as H2.
  cbn [fst snd] in H1, H2. rewrite H1, H2.
  destruct (Op_eq_dec (op_of line) RAD) as [-> | n1]; [reflexivity |].
  destruct (Op_eq_dec (op_of line) DEG) as [-> | n2]; [reflexivity |].
  destruct (op_of line); congruence.
Qed.

Lemma main_step_mode (s : session) (line : line_t) :
  rad_on (main_step s line)
  = mode_of (process_line (current s) (rad_on s) line).
Proof.
  unfold main_step, mode_of.
  destruct (process_line (current s) (rad_on s) line) as [[c m] d].
  reflexivity.
Qed.

Lemma main_from_mode (s : session) (lines : list line_t) :
  rad_on (main_from s lines) = last_toggle (rad_on s) lines.
Proof.
  revert s; induction lines as [| line lines IH]; intros s; [reflexivity |].
  unfold main_from, last_toggle in *. cbn [fold_left].
  rewrite IH, main_step_mode, process_line_toggle. reflexivity.
Qed.

(** C8.  A line that starts with [RAD] selects radians and one that
    starts with [DEG] selects degrees, without touching the accumulator
    and without a diagnostic; a line resolved to any other operation
    leaves the mode as it was; so after any sequence of lines the mode is
    the one selected by the last [RAD] or [DEG] line, the initial one if
    there is none; and a toggle applied twice gives what it gives once. *)
Theorem C8_angle_mode_persists (x : float) (m : bool) :
  (forall rest, process_line x m (str "RAD" ++ rest) = (x, true, []))
  /\ (forall rest, process_line x m (str "DEG" ++ rest) = (x, false, []))
  /\ (forall line,
         op_of line <> RAD -> op_of line <> DEG ->
         mode_of (process_line x m line) = m)
  /\ (forall s lines,
         rad_on (main_from s lines) = last_toggle (rad_on s) lines)
  /\ (forall rest,
         let r := process_line x m (str "RAD" ++ rest) in
         process_line (value_of r) (mode_of r) (str "RAD" ++ rest) = r)
  /\ (forall rest,
         let r := process_line x m (str "DEG" ++ rest) in
         process_line (value_of r) (mode_of r) (str "DEG" ++ rest) = r).
Proof.
  repeat split; try reflexivity.
  - intros line H1 H2. rewrite process_line_mode.
    destruct (op_of line); congruence.
  - intros s lines. apply main_from_mode.
Qed.

End AngleMode.

(** ** The digit budget of [parse_arg] *)

Lemma between_start (line : line_t) (i k : nat) :
  between line i (i + k) = firstn k (skipn i line).
Proof. unfold between. f_equal. lia. Qed.

(** C9.  [parse_arg] reads forward from its cursor; what it reads are
    digits and dots, with at most [max_decimal_digits] digits among them
    (dots are not counted); every character it reads, it reads with
    fewer than ten digits read before; it stops at the end of the line,
    on the tenth digit, or in front of a character that is neither digit
    nor dot; what is left of the line is reported in one diagnostic; and
    the value and the final cursor are those obtained from the line cut
    at the final cursor.  The loop ends by its own condition. *)
Theorem C9_digit_budget (line : line_t) (i : nat) :
  let '(v, j, d) := parse_arg line i in
  i <= j
  /\ count_digits (between line i j) <= max_decimal_digits
  /\ Forall (fun c => classify c <> Other) (between line i j)
  /\ (forall p, i <= p < j ->
      count_digits (between line i p) < max_decimal_digits)
  /\ (length line <= j
      \/ count_digits (between line i j) = max_decimal_digits
      \/ classify (at_ line j) = Other)
  /\ d = (if j <? length line then [Suffix_left (substr line j)] else [])
  /\ fst (parse_arg (firstn j line) i) = (v, j)
  /\ loop_cond line (parse_loop (parse_fuel line) line (parse_init i))
     = false.
Proof.
  pose proof (parse_loop_stops line i) as Hstop.
  rewrite parse_arg_scan. cbv zeta.
  destruct (scan_inv (skipn i line) (parse_init i))
    as (k & K1 & K2 & K3 & K4 & K5 & (K6 & K6') & K7 & K8).
  cbn [pos count parse_init] in K2, K3, K4.
  rewrite Nat.add_0_l in K3.
  rewrite K2, between_start.
  repeat split.
  - lia.
  - rewrite <- K3. apply K4. unfold max_decimal_digits; lia.
  - exact K5.
  - intros p Hp. specialize (K8 (p - i)).
    replace p with (i + (p - i)) by lia. rewrite between_start.
    cbn [count parse_init] in K8. lia.
  - rewrite length_skipn in K1, K7.
    destruct K7 as [K7 | [K7 | K7]].
    + left; lia.
    + right; left. rewrite <- K3.
      assert (count (scan (skipn i line) (parse_init i))
              <= max_decimal_digits)
        by (apply K4; unfold max_decimal_digits; lia).
      lia.
    + right; right. unfold at_. rewrite <- nth_skipn. exact K7.
  - rewrite parse_arg_scan. cbv zeta. cbn [fst].
    rewrite skipn_firstn_comm.
    replace (i + k - i) with k by lia.
    rewrite K6, K6', K2. reflexivity.
  - exact Hstop.
Qed.

(** ** A dot after a dot *)

Lemma skipn_length_app (w x : list ascii) (n : nat) :
  skipn (length w + n) (w ++ x) = skipn n x.
Proof. induction w as [| c w IH]; simpl; auto. Qed.

Lemma skipn_app_exact (w x : list ascii) : skipn (length w) (w ++ x) = x.
Proof. induction w as [| c w IH]; simpl; auto. Qed.

Lemma suffix_after (a b : list ascii) (n : nat) :
  (if length a + n <? length (a ++ b)
   then [Suffix_left (substr (a ++ b) (length a + n))] else [])
  = (if n <? length b then [Suffix_left (skipn n b)] else []).
Proof.
  rewrite length_app. unfold substr. rewrite skipn_length_app.
  destruct (Nat.ltb_spec (length a + n) (length a + length b));
    destruct (Nat.ltb_spec n (length b)); try reflexivity; lia.
Qed.

Lemma firstn_split (line : line_t) (i k : nat) :
  i <= k -> firstn k line = firstn i line ++ between line i k.
Proof.
  unfold between. revert i k; induction line as [| c line IH]; intros i k H.
  - rewrite !firstn_nil, skipn_nil, firstn_nil. reflexivity.
  - destruct i as [| i].
    + simpl. rewrite Nat.sub_0_r. reflexivity.
    + destruct k as [| k]; [lia |]. simpl. f_equal. apply IH. lia.
Qed.

Lemma digit_or_dot_class (c : ascii) :
  is_digit c || is_dot c = true -> classify c <> Other.
Proof.
  unfold classify. destruct (is_digit c); [discriminate |].
  destruct (is_dot c); [discriminate | simpl; discriminate].
Qed.

(** The core of C1, on a line given by its parts: [w] before the start
    cursor, [pre] read already, the dot, and [post]. *)
Lemma later_dot_parts (w pre post : list ascii) :
  Forall (fun c => classify c <> Other) pre ->
  existsb is_dot pre = true ->
  count_digits pre < max_decimal_digits ->
  parse_arg (w ++ pre ++ "."%char :: post) (length w) =
  let '(v, j, d) := parse_arg (w ++ pre ++ post) (length w) in
  (v, j + 1, d).
Proof.
  intros Hpre Hdot Hcnt.
  rewrite !parse_arg_scan. cbv zeta.
  rewrite !skipn_app_exact.
  set (st0 := parse_init (length w)).
  destruct (scan_app pre ("."%char :: post) st0 Hpre Hcnt)
    as (E1 & E2 & E3 & _ & E5).
  destruct (scan_app pre post st0 Hpre Hcnt) as (E1' & _).
  rewrite E1, E1'.
  set (s1 := scan pre st0) in *.
  cbn [count pos integer st0 parse_init] in E2, E3, E5.
  rewrite Hdot in E5. cbn [negb andb] in E5.
  cbn [scan]. rewrite E3.
  replace (0 + count_digits pre <? max_decimal_digits) with true
    by (symmetry; apply Nat.ltb_lt; lia).
  rewrite classify_dot_char, (on_dot_fraction_mode s1 E5), scan_shift.
  destruct (scan_inv post s1) as (k & K1 & K2 & _).
  cbn [shift res pos]. rewrite K2, E2.
  f_equal.
  replace (w ++ pre ++ "."%char :: post)
    with ((w ++ pre ++ ["."%char]) ++ post)
    by (rewrite <- !app_assoc; reflexivity).
  replace (length w + length pre + k + 1)
    with (length (w ++ pre ++ ["."%char]) + k)
    by (rewrite !length_app; simpl; lia).
  replace (w ++ pre ++ post) with ((w ++ pre) ++ post)
    by (rewrite <- app_assoc; reflexivity).
  replace (length w + length pre + k) with (length (w ++ pre) + k)
    by (rewrite length_app; lia).
  rewrite !suffix_after. reflexivity.
Qed.

(** C1, as the code has it.  A dot that [parse_arg] meets after an
    earlier dot, with the digit budget not yet used up, is consumed like
    the first one: the final cursor lies beyond it, and the call returns
    the value and the diagnostics obtained from the line without that dot,
    with the final cursor one further. *)
Theorem C1_later_dot_is_consumed (line : line_t) (i k : nat) :
  later_dot_at line i k = true ->
  k < snd (fst (parse_arg line i))
  /\ parse_arg line i =
     let '(v, j, d) := parse_arg (remove_at k line) i in (v, j + 1, d).
Proof.
  unfold later_dot_at. intros H.
  apply andb_true_iff in H as [H H4]. apply andb_true_iff in H as [H H3].
  apply andb_true_iff in H as [H H2]. apply andb_true_iff in H as [H H1].
  apply andb_true_iff in H as [H H0].
  apply Nat.leb_le in H. apply Nat.ltb_lt in H0. apply Nat.ltb_lt in H4.
  apply is_dot_eq in H1.
  assert (Hpre : Forall (fun c => classify c <> Other) (between line i k)).
  { apply Forall_forall. intros c Hc. apply digit_or_dot_class.
    rewrite forallb_forall in H2. apply H2, Hc. }
  assert (Hline : line = firstn i line ++ between line i k
                         ++ "."%char :: skipn (S k) line).
  { rewrite app_assoc, <- firstn_split by assumption.
    rewrite <- H1, <- skipn_at by assumption.
    symmetry; apply firstn_skipn. }
  assert (Hrem : remove_at k line
                 = firstn i line ++ between line i k ++ skipn (S k) line).
  { unfold remove_at. rewrite app_assoc, <- firstn_split by assumption.
    reflexivity. }
  assert (Hi : length (firstn i line) = i)
    by (apply firstn_length_le; lia).
  pose proof (later_dot_parts (firstn i line) (between line i k)
                (skipn (S k) line) Hpre H3 H4) as P.
  rewrite Hi, <- Hline, <- Hrem in P.
  split; [| exact P].
  rewrite P.
  rewrite parse_arg_scan. cbv zeta. cbn [fst snd].
  rewrite Hrem.
  pose proof (skipn_app_exact (firstn i line)
                (between line i k ++ skipn (S k) line)) as Hs.
  rewrite Hi in Hs. rewrite Hs.
  destruct (scan_app (between line i k) (skipn (S k) line) (parse_init i)
              Hpre H4) as (E1 & E2 & _).
  rewrite E1.
  destruct (scan_inv (skipn (S k) line) (scan (between line i k) (parse_init i)))
    as (k' & _ & K2 & _).
  rewrite K2, E2. cbn [pos parse_init].
  assert (length (between line i k) = k - i).
  { unfold between. rewrite firstn_length_le; [reflexivity |].
    rewrite length_skipn. lia. }
  lia.
Qed.

(** * The model at concrete lines

    The evaluations below run on [Fragment.libm]; every library call they
    make is at an argument inside the fragment. *)

(** The session of the specification's first example: [5], [+3], [*2]
    from the initial state print 5, 8 and 16. *)
Example session_5_plus_3_times_2 :
  printed (main (M := Fragment.libm) [str "5"; str "+3"; str "*2"])
  = [F.of_Z 5; F.of_Z 8; F.of_Z 16].
Proof. vm_compute; reflexivity. Qed.

(** A dot is read without spending the digit budget: eleven characters,
    ten digits. *)
Example dot_is_free :
  snd (fst (parse_arg (str "1.2345678901") 0)) = 11
  /\ snd (parse_arg (str "1.2345678901") 0) = [Suffix_left (str "1")].
Proof. vm_compute; split; reflexivity. Qed.

(** After ten digits a dot is left unread. *)
Example dot_after_budget :
  snd (fst (parse_arg (str "1234567890.5") 0)) = 10
  /\ snd (parse_arg (str "1234567890.5") 0) = [Suffix_left (str ".5")].
Proof. vm_compute; split; reflexivity. Qed.

(** The remainder of the fragment rounds the quotient to nearest: 5 by 3
    leaves -1 and 7 by 2 leaves -1, where truncation leaves 2 and 1. *)
Example remainder_is_to_nearest :
  process_line (M := Fragment.libm) (F.of_Z 5) false (str "%3")
  = (F.of_Z (-1), false, [])
  /\ process_line (M := Fragment.libm) (F.of_Z 7) false (str "% 2")
     = (F.of_Z (-1), false, [])
  /\ process_line (M := Fragment.libm) (F.of_Z 10) false (str "%3")
     = (F.of_Z 1, false, []).
Proof. vm_compute; repeat split; reflexivity. Qed.

(** C1 at [1.2.3]: the dot at position 3 is read, the cursor ends at 5,
    and the value is that of [1.23]. *)
Lemma C1_later_dot_is_consumed_witness :
  later_dot_at (str "1.2.3") 0 3 = true
  /\ 3 < snd (fst (parse_arg (str "1.2.3") 0))
  /\ parse_arg (str "1.2.3") 0 =
     (let '(v, j, d) := parse_arg (remove_at 3 (str "1.2.3")) 0 in
      (v, j + 1, d)).
Proof.
  split; [vm_compute; reflexivity |].
  apply (C1_later_dot_is_consumed (str "1.2.3") 0 3).
  vm_compute; reflexivity.
Defined.

(** C1 as the specification words it fails at [1.2.3]: position 3 holds
    the second dot met from cursor 0, and the value and final cursor are
    not those of the line cut in front of that dot, [1.2]. *)
Lemma C1_second_dot_counterexample :
  later_dot_at (str "1.2.3") 0 3 = true
  /\ dots_between (str "1.2.3") 0 3 = 1
  /\ firstn 3 (str "1.2.3") = str "1.2"
  /\ snd (fst (parse_arg (str "1.2.3") 0)) = 5
  /\ snd (fst (parse_arg (firstn 3 (str "1.2.3")) 0)) = 3
  /\ fst (parse_arg (str "1.2.3") 0)
     <> fst (parse_arg (firstn 3 (str "1.2.3")) 0).
Proof. vm_compute. repeat split; discriminate. Qed.

(** C2 at [XYZ]. *)
Lemma C2_unknown_token_witness :
  recognized (str "XYZ") = false
  /\ process_line (M := Fragment.libm) (F.of_Z 7) true (str "XYZ")
     = (F.of_Z 7, true, [Unknown_operation (str "XYZ")]).
Proof.
  split; [reflexivity |].
  apply (C2_unknown_token (M := Fragment.libm) (F.of_Z 7) true (str "XYZ")).
  reflexivity.
Defined.

(** C3 at 0 radians, where the cosine is 1; at 90 degrees, where it is
    about 6e-17; and at an infinite accumulator, where it is NaN.
    Cotangent at 180 degrees, where the sine is about 1.2e-16. *)
Lemma C3_tangent_cotangent_guards_witness :
  unary (M := Fragment.libm) F.zero TAN true = (F.zero, [])
  /\ unary (M := Fragment.libm) (F.of_Z 90) TAN false = (inf, [])
  /\ unary (M := Fragment.libm) INFINITY TAN true = (inf, [])
  /\ unary (M := Fragment.libm) (F.of_Z 180) CTN false = (INFINITY, [])
  /\ unary (M := Fragment.libm) (F.of_Z 90) CTN false
     = (F.div (F.of_Z 1) (F.of_Z 16331239353195370), []).
Proof.
  pose proof (C3_tangent_cotangent_guards (M := Fragment.libm) F.zero true)
    as (T0 & _).
  pose proof (C3_tangent_cotangent_guards (M := Fragment.libm)
                (F.of_Z 90) false)
    as (_ & _ & T90 & _ & _ & _ & C90 & _).
  pose proof (C3_tangent_cotangent_guards (M := Fragment.libm) INFINITY true)
    as (_ & Tinf & _).
  pose proof (C3_tangent_cotangent_guards (M := Fragment.libm)
                (F.of_Z 180) false)
    as (_ & _ & _ & _ & _ & _ & _ & C180 & C180' & _).
  split; [apply T0; reflexivity |].
  split; [apply T90; reflexivity |].
  split; [apply Tinf; reflexivity |].
  split; [apply C180'; reflexivity |].
  apply C90; reflexivity.
Defined.

(** C3 as the specification words it fails at an infinite accumulator:
    the absolute value of the cosine is not at most [eps] (the cosine is
    NaN), yet tangent returns the sentinel and not [tan] of the angle.
    The lines [2], [ASIN], [TAN] reach this state from the initial one. *)
Lemma C3_tan_otherwise_counterexample :
  F.le (F.abs (cos (LibM := Fragment.libm)
                 (to_radians INFINITY true))) eps = false
  /\ unary (M := Fragment.libm) INFINITY TAN true
     <> (tan (LibM := Fragment.libm) (to_radians INFINITY true), [])
  /\ unary (M := Fragment.libm) INFINITY TAN true = (inf, [])
  /\ printed (main (M := Fragment.libm) [str "2"; str "ASIN"; str "TAN"])
     = [F.of_Z 2; INFINITY; inf].
Proof. vm_compute. repeat split; discriminate. Qed.

(** C4 at accumulator -4 and right operands 0 and 3. *)
Lemma C4_sqrt_div_rem_guards_witness :
  unary (M := Fragment.libm) (F.of_Z (-4)) SQRT false
  = (F.of_Z (-4), [Bad_SQRT (F.of_Z (-4))])
  /\ unary (M := Fragment.libm) (F.of_Z 0) SQRT false
     = (F.of_Z 0, [Bad_SQRT (F.of_Z 0)])
  /\ binary (M := Fragment.libm) DIV (F.of_Z 10) (F.of_Z 0)
     = (F.of_Z 10, [Bad_division (F.of_Z 0)])
  /\ binary (M := Fragment.libm) REM (F.of_Z 10) (F.of_Z 0)
     = (F.of_Z 10, [Bad_remainder (F.of_Z 0)])
  /\ binary (M := Fragment.libm) REM (F.of_Z 10) (F.of_Z 3)
     = (remainder (LibM := Fragment.libm) (F.of_Z 10) (F.of_Z 3), []).
Proof.
  pose proof (C4_sqrt_div_rem_guards (M := Fragment.libm)
                (F.of_Z (-4)) (F.of_Z 0) false) as (S4 & _).
  pose proof (C4_sqrt_div_rem_guards (M := Fragment.libm)
                (F.of_Z 0) (F.of_Z 0) false) as (S0 & _).
  pose proof (C4_sqrt_div_rem_guards (M := Fragment.libm)
                (F.of_Z 10) (F.of_Z 0) false) as (_ & D0 & R0 & _).
  pose proof (C4_sqrt_div_rem_guards (M := Fragment.libm)
                (F.of_Z 10) (F.of_Z 3) false) as (_ & _ & _ & R3 & _).
  split; [apply S4; reflexivity |].
  split; [apply S0; reflexivity |].
  split; [apply D0; reflexivity |].
  split; [apply R0; reflexivity |].
  apply R3; reflexivity.
Defined.

(** C5 at accumulators 0, 1 and 2.  In radians the arcsine of 0 is 0 and
    its arccosine pi/2; in degrees the arcsine of 1 and the arccosine of
    0 are 90; at 2 both are rejected. *)
Lemma C5_asin_acos_domain_witness :
  (unary (M := Fragment.libm) F.zero ASIN true = (F.zero, [])
   /\ unary (M := Fragment.libm) F.zero ACOS true
      = (F.div M_PI (F.of_Z 2), []))
  /\ (unary (M := Fragment.libm) (F.of_Z 2) ASIN true
      = (INFINITY, [Bad_ASIN (F.of_Z 2)])
      /\ unary (M := Fragment.libm) (F.of_Z 2) ACOS true
         = (F.of_Z 2, [Bad_ACOS (F.of_Z 2)]))
  /\ unary (M := Fragment.libm) (F.of_Z 1) ASIN false = (F.of_Z 90, [])
  /\ unary (M := Fragment.libm) (F.of_Z 1) ASIN true
     = (F.div M_PI (F.of_Z 2), [])
  /\ unary (M := Fragment.libm) F.zero ACOS false = (F.of_Z 90, [])
  /\ unary (M := Fragment.libm) (F.of_Z 2) ASIN false
     = (INFINITY, [Bad_ASIN (F.of_Z 2)]).
Proof.
  pose proof (C5_asin_acos_domain (M := Fragment.libm) F.zero true)
    as (Z1 & _ & Z3).
  pose proof (C5_asin_acos_domain (M := Fragment.libm) (F.of_Z 2) true)
    as (_ & T2 & _).
  pose proof (C5_asin_acos_domain (M := Fragment.libm) (F.of_Z 2) false)
    as (_ & T2' & _).
  pose proof (C5_asin_acos_domain (M := Fragment.libm) (F.of_Z 1) false)
    as (_ & _ & O3).
  split; [apply Z1; reflexivity |].
  split; [apply T2; reflexivity |].
  split; [apply (proj1 (proj2 (O3 eq_refl))) |].
  split; [apply (proj1 (O3 eq_refl)) |].
  split; [apply (proj2 (proj2 (proj2 (Z3 eq_refl)))) |].
  apply (proj1 (T2' eq_refl)).
Defined.

(** C6 at accumulators 0, 1 and 2: the arctangent of 1 is pi/4 in
    radians and 45 in degrees; 2 is rejected in either mode. *)
Lemma C6_atan_domain_witness :
  unary (M := Fragment.libm) F.zero ATAN true = (F.zero, [])
  /\ unary (M := Fragment.libm) (F.of_Z 2) ATAN true
     = (F.of_Z 2, [Bad_ATAN (F.of_Z 2)])
  /\ unary (M := Fragment.libm) (F.of_Z 1) ATAN true
     = (F.div M_PI (F.of_Z 4), [])
  /\ unary (M := Fragment.libm) (F.of_Z 1) ATAN false = (F.of_Z 45, [])
  /\ unary (M := Fragment.libm) (F.of_Z 2) ATAN false
     = (F.of_Z 2, [Bad_ATAN (F.of_Z 2)]).
Proof.
  pose proof (C6_atan_domain (M := Fragment.libm) F.zero true) as (A0 & _).
  pose proof (C6_atan_domain (M := Fragment.libm) (F.of_Z 2) true)
    as (_ & A2 & _).
  pose proof (C6_atan_domain (M := Fragment.libm) (F.of_Z 2) false)
    as (_ & _ & A2' & _).
  pose proof (C6_atan_domain (M := Fragment.libm) (F.of_Z 1) false)
    as (_ & _ & _ & A1).
  split; [apply A0; reflexivity |].
  split; [apply A2; reflexivity |].
  split; [apply (proj1 (A1 eq_refl)) |].
  split; [apply (proj2 (A1 eq_refl)) |].
  apply A2'; reflexivity.
Defined.

(** C7 at [5SIN]: the digit wins over the mnemonic that follows. *)
Lemma C7_leading_digit_sets_witness :
  is_digit (at_ (str "5SIN") 0) = true
  /\ parse_op (str "5SIN") 0 = (SET, 0, [])
  /\ process_line (M := Fragment.libm) (F.of_Z 7) false (str "5SIN")
     = (F.of_Z 5, false, [Suffix_left (str "SIN")]).
Proof.
  split; [reflexivity |].
  apply (C7_leading_digit_sets (M := Fragment.libm) (F.of_Z 7) false
           (str "5SIN")).
  reflexivity.
Defined.

(** C8 at the line [+3], which is neither toggle. *)
Lemma C8_angle_mode_persists_witness :
  op_of (str "+3") <> RAD
  /\ op_of (str "+3") <> DEG
  /\ mode_of (process_line (M := Fragment.libm) (F.of_Z 7) true (str "+3"))
     = true.
Proof.
  assert (H1 : op_of (str "+3") <> RAD) by discriminate.
  assert (H2 : op_of (str "+3") <> DEG) by discriminate.
  split; [exact H1 |]. split; [exact H2 |].
  exact (proj1 (proj2 (proj2 (C8_angle_mode_persists (M := Fragment.libm)
                                (F.of_Z 7) true)))
           (str "+3") H1 H2).
Defined.

(** C10 at [SINxyz]. *)
Lemma C10_trailing_characters_ignored_witness :
  In ("SIN"%string, SIN) (symbols ++ mnemonics)
  /\ arity SIN <> 2
  /\ op_of (str "SIN" ++ str "xyz") = SIN
  /\ process_line (M := Fragment.libm) F.zero true (str "SIN" ++ str "xyz")
     = process_line (M := Fragment.libm) F.zero true (str "SIN")
  /\ existsb is_suffix_diag
       (diags_of (process_line (M := Fragment.libm) F.zero true
                    (str "SIN" ++ str "xyz"))) = false.
Proof.
  assert (H1 : In ("SIN"%string, SIN) (symbols ++ mnemonics))
    by (simpl; tauto).
  assert (H2 : arity SIN <> 2) by discriminate.
  split; [exact H1 |]. split; [exact H2 |].
  exact (proj1 (C10_trailing_characters_ignored (M := Fragment.libm)
                  F.zero true)
           "SIN"%string SIN (str "xyz") H1 H2).
Defined.

(** * Further properties of the parser *)

(** ** [skip_ws] *)

Lemma skip_ws_loop_leading (fuel : nat) (line : line_t) (i : nat) :
  length line - i <= fuel ->
  skip_ws_loop fuel line i = i + leading_spaces (skipn i line).
Proof.
  revert i; induction fuel as [| fuel IH]; intros i Hf; simpl.
  - rewrite skipn_all2 by lia. simpl. lia.
  - destruct (i <? length line) eqn:Hi; simpl.
    + apply Nat.ltb_lt in Hi. rewrite (skipn_at line i Hi).
      cbn [leading_spaces].
      destruct (isspace (at_ line i)); [| lia].
      rewrite IH by lia. rewrite Nat.add_1_r. lia.
    + apply Nat.ltb_ge in Hi. rewrite skipn_all2 by lia. simpl. lia.
Qed.

(** [skip_ws] moves the cursor over the whitespace in front of it. *)
Lemma skip_ws_leading (line : line_t) (i : nat) :
  skip_ws line i = i + leading_spaces (skipn i line).
Proof. apply skip_ws_loop_leading. lia. Qed.

Lemma leading_spaces_spec (l : list ascii) :
  leading_spaces l <= length l
  /\ forallb isspace (firstn (leading_spaces l) l) = true
  /\ (leading_spaces l = length l
      \/ isspace (nth (leading_spaces l) l zero) = false)
  /\ leading_spaces (skipn (leading_spaces l) l) = 0.
Proof.
  induction l as [| c l (I1 & I2 & I3 & I4)]; simpl.
  - repeat split; auto.
  - destruct (isspace c) eqn:E; simpl.
    + rewrite E, I2. repeat split; try assumption; try lia.
      destruct I3 as [I3 | I3]; [left; lia | right; assumption].
    + rewrite E. repeat split; auto; lia.
Qed.

Lemma leading_spaces_app (ws rest : list ascii) :
  forallb isspace ws = true ->
  leading_spaces (ws ++ rest) = length ws + leading_spaces rest.
Proof.
  induction ws as [| c ws IH]; simpl; [reflexivity |].
  intros H. apply andb_true_iff in H as [Hc Hws].
  rewrite Hc, IH by assumption. reflexivity.
Qed.

Lemma leading_spaces_all (ws : list ascii) :
  forallb isspace ws = true -> leading_spaces ws = length ws.
Proof.
  intros H. rewrite <- (app_nil_r ws) at 1.
  rewrite leading_spaces_app by assumption. simpl. lia.
Qed.

(** X1.  From any cursor, [skip_ws] moves forward, never past the end of
    the line (or not at all if it starts beyond it), over whitespace
    only, and stops at the end of the line or on the first character
    that is not whitespace; applied again at the cursor it returns, it
    stays there. *)
Theorem X1_skip_ws_first_non_space (line : line_t) (i : nat) :
  let j := skip_ws line i in
  i <= j
  /\ j <= Nat.max i (length line)
  /\ forallb isspace (between line i j) = true
  /\ (length line <= j \/ isspace (at_ line j) = false)
  /\ skip_ws line j = j.
Proof.
  cbv zeta. rewrite skip_ws_leading.
  destruct (leading_spaces_spec (skipn i line)) as (L1 & L2 & L3 & L4).
  rewrite length_skipn in L1, L3.
  repeat split.
  - lia.
  - lia.
  - rewrite between_start. exact L2.
  - destruct L3 as [L3 | L3]; [left; lia |].
    right. unfold at_. rewrite <- nth_skipn. exact L3.
  - rewrite skip_ws_leading.
    replace (skipn (i + leading_spaces (skipn i line)) line)
      with (skipn (leading_spaces (skipn i line)) (skipn i line))
      by (rewrite skipn_skipn; f_equal; lia).
    rewrite L4. lia.
Qed.

(** ** [parse_op] from any cursor *)

Lemma at_skipn (line : line_t) (i k : nat) :
  at_ line (i + k) = at_ (skipn i line) k.
Proof. unfold at_. symmetry. apply nth_skipn. Qed.

Ltac split_if_left c tac :=
  lazymatch goal with
  | |- context [c] => split_char c; cbv beta iota; tac
  | |- _ => reflexivity
  end.

(** The decision tree of [parse_op] is the same from every cursor. *)
Lemma parse_op_from (line : line_t) (i : nat) :
  parse_op line i =
  let '(op, j, d) := parse_op (skipn i line) 0 in
  (op, j + i, match d with [] => [] | _ => [Unknown_operation line] end).
Proof.
  unfold parse_op at 1. unfold rollback. rewrite !Nat.add_sub.
  rewrite <- (Nat.add_0_r i) at 1.
  rewrite !at_skipn.
  set (l := skipn i line).
  unfold parse_op, rollback. cbn [Nat.add Nat.sub].
  rewrite (Nat.add_comm i 1), (Nat.add_comm i 3), (Nat.add_comm i 4).
  generalize (Unknown_operation line) (Unknown_operation l).
  generalize (at_ l 0) (at_ l 1) (at_ l 2) (at_ l 3).
  intros c0 c1 c2 c3 d d'.
  split_char c0; cbv beta iota;
    split_if_left c1
      ltac:(idtac; split_if_left c2
                     ltac:(idtac; split_if_left c3 ltac:(idtac; reflexivity))).
Qed.

(** X2.  From any cursor [i], [parse_op] decides on the characters from
    [i] on alone: on a digit it answers [SET] and leaves the cursor at
    [i]; on a symbol or mnemonic of the table it answers its operation and
    leaves the cursor just after it; on anything else it answers [ERR],
    writes one diagnostic naming the whole line and leaves the cursor at
    [i]: every [rollback] undoes exactly the increments made before it. *)
Theorem X2_parse_op_cursor (line : line_t) (i : nat) :
  parse_op line i =
  if is_digit (at_ (skipn i line) 0) then (SET, i, [])
  else match lookup (symbols ++ mnemonics) (skipn i line) with
       | Some (tok, op) => (op, i + String.length tok, [])
       | None => (ERR, i, [Unknown_operation line])
       end.
Proof.
  rewrite parse_op_from, parse_op_lookup.
  destruct (is_digit (at_ (skipn i line) 0)); [reflexivity |].
  destruct (lookup (symbols ++ mnemonics) (skipn i line)) as [[tok op] |];
    [| reflexivity].
  rewrite Nat.add_comm. reflexivity.
Qed.

(** ** [parse_arg] looks at the characters from the cursor on *)

Lemma scan_move (n : nat) (l : list ascii) (st : pstate) :
  scan l (move n st) = move n (scan l st).
Proof.
  revert st; induction l as [| c l IH]; intros st; [reflexivity |].
  simpl. change (count (move n st)) with (count st).
  destruct (count st <? max_decimal_digits); [| reflexivity].
  destruct (classify c).
  - replace (on_digit c (move n st)) with (move n (on_digit c st));
      [apply IH |].
    unfold on_digit, move; simpl. destruct (integer st); simpl; f_equal; lia.
  - replace (on_dot (move n st)) with (move n (on_dot st)); [apply IH |].
    unfold on_dot, move; simpl. f_equal; lia.
  - reflexivity.
Qed.

Lemma parse_arg_suffix (w l : list ascii) :
  parse_arg (w ++ l) (length w) =
  let '(v, j, d) := parse_arg l 0 in (v, length w + j, d).
Proof.
  rewrite !parse_arg_scan. cbv zeta. rewrite skipn_app_exact.
  cbn [skipn].
  change (parse_init (length w))
    with (move (length w) (parse_init 0)) at 1 2 3 4.
  rewrite scan_move. cbn [move res pos].
  replace (pos (scan l (parse_init 0)) + length w)
    with (length w + pos (scan l (parse_init 0))) by lia.
  rewrite suffix_after. reflexivity.
Qed.

(** * Further properties of [process_line] *)

(** [parse_op] fails with its one diagnostic, or succeeds without any. *)
Lemma parse_op_shape (line : line_t) :
  parse_op line 0 = (ERR, 0, [Unknown_operation line])
  \/ (op_of line <> ERR /\ snd (parse_op line 0) = []).
Proof.
  pose proof (proj1 (recognized_iff line)) as R.
  unfold recognized, op_of in *. rewrite parse_op_lookup in *.
  destruct (is_digit (at_ line 0)); cbn [orb fst snd] in *;
    [right; split; [discriminate | reflexivity] |].
  destruct (lookup (symbols ++ mnemonics) line) as [[tok op] |];
    cbn [fst snd] in *; [right; split; auto | left; reflexivity].
Qed.

Lemma parse_arg_diags (line : line_t) (i : nat) :
  existsb is_failure_diag (snd (parse_arg line i)) = false
  /\ length (snd (parse_arg line i)) <= 1.
Proof.
  unfold parse_arg. cbn [snd].
  destruct (pos _ <? length line); simpl; split; auto.
Qed.

Lemma opp_involutive (x : float) : F.opp (F.opp x) = x.
Proof. destruct x as [[] | [] | | [] m e]; reflexivity. Qed.

Ltac split_ifs :=
  repeat match goal with
         | |- context [if ?b then _ else _] => destruct b
         | H : context [if ?b then _ else _] |- _ => destruct b
         end.

Section LineProperties.

Context {M : LibM}.

(** A line that starts with a symbol of arity 2: the value is read after
    the whitespace that follows the symbol. *)
Lemma process_line_symbol (x : float) (m : bool) (op : Op)
      (c : ascii) (body : list ascii) :
  parse_op (c :: body) 0 = (op, 1, []) ->
  arity op = 2 ->
  process_line x m (c :: body) =
  let '(v, _, d1) := parse_arg (skipn (leading_spaces body) body) 0 in
  let '(r, d2) := binary op x v in
  (r, m, d1 ++ d2).
Proof.
  intros P A. unfold process_line. rewrite P, A.
  rewrite skip_ws_leading. cbn [skipn].
  destruct (leading_spaces_spec body) as (L & _).
  set (k := leading_spaces body) in *.
  assert (E : c :: body = (c :: firstn k body) ++ skipn k body)
    by (cbn [app]; rewrite firstn_skipn; reflexivity).
  assert (El : 1 + k = length (c :: firstn k body))
    by (cbn [length]; rewrite firstn_length_le by exact L; lia).
  rewrite E at 1. rewrite El, parse_arg_suffix.
  destruct (parse_arg (skipn k body) 0) as [[v j] d1].
  destruct (binary op x v) as [r d2]. reflexivity.
Qed.

Lemma symbol_parse_op (tok : string) (op : Op) (body : list ascii) :
  In (tok, op) symbols ->
  exists c, str tok = [c] /\ parse_op (c :: body) 0 = (op, 1, []).
Proof.
  intros H. simpl in H.
  repeat (destruct H as [H | H];
          [inversion H; subst tok op; eexists; split; reflexivity |]).
  contradiction.
Qed.

(** X3.  [process_line] does not skip whitespace in front of the
    operation: a line whose first character is whitespace is an unknown
    operation, whatever follows; the accumulator and the mode stay and
    one diagnostic is written. *)
Theorem X3_leading_space_is_unknown (x : float) (m : bool) (line : line_t) :
  isspace (at_ line 0) = true ->
  process_line x m line = (x, m, [Unknown_operation line]).
Proof.
  destruct line as [| c l]; [discriminate |].
  unfold at_; cbn [nth]. intros H.
  split_char c; try discriminate H; reflexivity.
Qed.

(** X4.  Whitespace between a symbol of arity 2 and its argument is
    skipped: with any run of whitespace inserted after the symbol the
    line gives the same value, mode and diagnostics. *)
Theorem X4_space_before_argument (x : float) (m : bool)
        (tok : string) (op : Op) (ws rest : list ascii) :
  In (tok, op) symbols ->
  arity op = 2 ->
  forallb isspace ws = true ->
  process_line x m (str tok ++ ws ++ rest)
  = process_line x m (str tok ++ rest).
Proof.
  intros Hin A Hws.
  destruct (symbol_parse_op tok op (ws ++ rest) Hin) as (c & Ec & P1).
  destruct (symbol_parse_op tok op rest Hin) as (c' & Ec' & P2).
  rewrite Ec in Ec'. injection Ec' as <-.
  rewrite Ec. cbn [app].
  rewrite (process_line_symbol x m op c (ws ++ rest) P1 A).
  rewrite (process_line_symbol x m op c rest P2 A).
  rewrite leading_spaces_app by exact Hws.
  replace (skipn (length ws + leading_spaces rest) (ws ++ rest))
    with (skipn (leading_spaces rest) rest)
    by (symmetry; apply skipn_length_app).
  reflexivity.
Qed.

(** X5.  A symbol of arity 2 with nothing but whitespace after it takes
    0 for its argument and [parse_arg] writes no diagnostic: the line
    gives what [binary] gives on the accumulator and 0. *)
Theorem X5_missing_argument_is_zero (x : float) (m : bool)
        (tok : string) (op : Op) (ws : list ascii) :
  In (tok, op) symbols ->
  arity op = 2 ->
  forallb isspace ws = true ->
  process_line x m (str tok ++ ws)
  = (fst (binary op x (F.of_Z 0)), m, snd (binary op x (F.of_Z 0))).
Proof.
  intros Hin A Hws.
  destruct (symbol_parse_op tok op ws Hin) as (c & Ec & P).
  rewrite Ec. cbn [app].
  rewrite (process_line_symbol x m op c ws P A).
  rewrite leading_spaces_all by exact Hws. rewrite skipn_all.
  change (parse_arg [] 0) with (F.of_Z 0, 0, @nil Diag).
  cbv beta iota.
  destruct (binary op x (F.of_Z 0)) as [r d2]. reflexivity.
Qed.

(** X6.  A line that starts with [_] negates the accumulator, without
    diagnostic and with the mode unchanged.  On every double that is not
    a NaN, the signed zeros and the infinities included, negation is an
    involution: two such lines give the accumulator back exactly.  A NaN
    accumulator stays a NaN (the model does not represent its sign bit,
    which the code flips). *)
Theorem X6_negate_twice (x : float) (m : bool) (r1 r2 : list ascii) :
  let a := process_line x m (str "_" ++ r1) in
  a = (F.opp x, m, [])
  /\ (F.is_nan x = false ->
      process_line (value_of a) (mode_of a) (str "_" ++ r2) = (x, m, []))
  /\ (F.is_nan x = true ->
      F.is_nan (value_of a) = true
      /\ F.is_nan
           (value_of (process_line (value_of a) (mode_of a)
                        (str "_" ++ r2))) = true).
Proof.
  cbv zeta. split; [reflexivity |].
  change (process_line x m (str "_" ++ r1)) with (F.opp x, m, @nil Diag).
  cbn [value_of mode_of fst snd].
  change (process_line (F.opp x) m (str "_" ++ r2))
    with (F.opp (F.opp x), m, @nil Diag).
  cbn [fst]. rewrite opp_involutive.
  split; [reflexivity |].
  intros H. destruct x; try discriminate H. split; reflexivity.
Qed.

(** X7.  Whenever a line writes a diagnostic other than the one about an
    unread suffix (an unknown operation or a rejected operand), the mode
    is unchanged and the accumulator is unchanged too, with one
    exception: a rejected [ASIN] replaces it by IEEE infinity. *)
Theorem X7_failure_keeps_state (x : float) (m : bool) (line : line_t) :
  existsb is_failure_diag (diags_of (process_line x m line)) = true ->
  mode_of (process_line x m line) = m
  /\ (value_of (process_line x m line) = x
      \/ (op_of line = ASIN
          /\ value_of (process_line x m line) = INFINITY)).
Proof.
  intros H.
  destruct (parse_op_shape line) as [E | [E1 E2]].
  - unfold process_line in *. rewrite E in *. split; [| left]; reflexivity.
  - unfold process_line, op_of, value_of, mode_of, diags_of in *.
    destruct (parse_op line 0) as [[op i] d0]. cbn [fst snd] in *. subst d0.
    pose proof (proj1 (parse_arg_diags line (skip_ws line i))) as Pd.
    destruct (parse_arg line (skip_ws line i)) as [[v j] d1].
    cbn [snd] in Pd.
    destruct op; cbn [arity nullary unary binary] in *;
      split_ifs; cbn [fst snd app] in *;
      rewrite ?existsb_app, ?Pd in H; cbn in H;
      try discriminate H; auto.
Qed.

(** X8.  A line writes at most as many diagnostics as its operation has
    operands, and at most one when it has none: never more than two. *)
Theorem X8_diagnostics_bounded (x : float) (m : bool) (line : line_t) :
  length (diags_of (process_line x m line))
  <= Nat.max 1 (arity (op_of line))
  /\ length (diags_of (process_line x m line)) <= 2.
Proof.
  assert (G : length (diags_of (process_line x m line))
              <= Nat.max 1 (arity (op_of line))).
  { destruct (parse_op_shape line) as [E | [E1 E2]].
    - unfold process_line, op_of in *. rewrite E. simpl. lia.
    - unfold process_line, op_of, diags_of in *.
      destruct (parse_op line 0) as [[op i] d0]. cbn [fst snd] in *.
      subst d0.
      pose proof (proj2 (parse_arg_diags line (skip_ws line i))) as Pd.
      destruct (parse_arg line (skip_ws line i)) as [[v j] d1].
      cbn [snd] in Pd.
      destruct op; cbn [arity nullary unary binary] in *;
        split_ifs; cbn [fst snd app length Nat.max] in *;
        rewrite ?length_app, ?app_nil_r; cbn [length]; lia. }
  split; [exact G |].
  assert (arity (op_of line) <= 2) by (destruct (op_of line); simpl; lia).
  lia.
Qed.

(** X9.  [ACTN] is computed, and converted to the active angle unit
    (returned as it is in radians, multiplied by 180 and divided by
    [M_PI] in degrees), exactly when the absolute value of the
    accumulator lies strictly between 0 and [M_PI]; a zero of either
    sign, a value of absolute value [M_PI] or more, and NaN are rejected
    with a diagnostic and the accumulator is returned, so [actn] never
    divides by zero. *)
Theorem X9_actn_domain (x : float) (m : bool) :
  (F.lt (F.of_Z 0) (F.abs x) && F.lt (F.abs x) M_PI = true ->
   unary x ACTN m = (to_degrees (actn x) m, []))
  /\ (F.lt (F.of_Z 0) (F.abs x) && F.lt (F.abs x) M_PI = false ->
      unary x ACTN m = (x, [Bad_ACTN x]))
  /\ (F.neq x (F.of_Z 0) = false -> unary x ACTN m = (x, [Bad_ACTN x]))
  /\ (F.le M_PI (F.abs x) = true -> unary x ACTN m = (x, [Bad_ACTN x]))
  /\ (F.is_nan x = true -> unary x ACTN m = (x, [Bad_ACTN x]))
  /\ (F.lt (F.of_Z 0) (F.abs x) && F.lt (F.abs x) M_PI = true ->
      unary x ACTN true = (actn x, [])
      /\ unary x ACTN false
         = (F.div (F.mul (actn x) (F.of_Z 180)) M_PI, [])).
Proof.
  cbn [unary to_degrees].
  split; [| split; [| split; [| split; [| split]]]]; intros H.
  - rewrite H; reflexivity.
  - rewrite H; reflexivity.
  - destruct x as [s | s | | s mx ex]; try destruct s; try discriminate H;
      reflexivity.
  - pose proof (le_not_gt _ _ H) as G. unfold F.gt in G. unfold F.lt at 2.
    rewrite G, andb_false_r. reflexivity.
  - destruct x; try discriminate H. reflexivity.
  - rewrite H; split; reflexivity.
Qed.

(** X10.  The angle mode matters to the trigonometric operations only:
    a line resolved to any other operation gives the same value and the
    same diagnostics in radians and in degrees. *)
Theorem X10_mode_only_for_angles (x : float) (m m' : bool) (line : line_t) :
  uses_angle (op_of line) = false ->
  value_of (process_line x m line) = value_of (process_line x m' line)
  /\ diags_of (process_line x m line) = diags_of (process_line x m' line).
Proof.
  unfold process_line, op_of, value_of, diags_of.
  destruct (parse_op line 0) as [[op i] d0]. cbn [fst snd].
  destruct (parse_arg line (skip_ws line i)) as [[v j] d1].
  intros H.
  destruct op; try discriminate H;
    cbn [arity nullary unary binary]; split_ifs; split; reflexivity.
Qed.

End LineProperties.

(** * Further properties: signs and the read loop *)

(** ** Rounding keeps the sign *)

Lemma iter_pos_inv (A : Type) (P : A -> Prop) (f : A -> A) :
  (forall x, P x -> P (f x)) ->
  forall n x, P x -> P (iter_pos f n x).
Proof.
  intros Hf; induction n as [n IH | n IH |]; intros x Hx; simpl; auto.
Qed.

Lemma shr_1_nonneg (mrs : shr_record) :
  (0 <= shr_m mrs)%Z -> (0 <= shr_m (shr_1 mrs))%Z.
Proof.
  destruct mrs as [mm r s]; destruct mm as [| p | p]; simpl; intros H;
    try lia; destruct p; simpl; lia.
Qed.

Lemma shr_nonneg (mrs : shr_record) (e n : Z) :
  (0 <= shr_m mrs)%Z -> (0 <= shr_m (fst (shr mrs e n)))%Z.
Proof.
  intros H. unfold shr. destruct n; cbn [fst]; try assumption.
  apply (iter_pos_inv shr_record (fun r => (0 <= shr_m r)%Z) shr_1
           shr_1_nonneg).
  assumption.
Qed.

Lemma shr_fexp_nonneg (m e : Z) (l : location) :
  (0 <= m)%Z -> (0 <= shr_m (fst (shr_fexp F.prec F.emax m e l)))%Z.
Proof.
  intros H. unfold shr_fexp. apply shr_nonneg.
  destruct l as [| []]; simpl; assumption.
Qed.

Lemma round_nearest_even_nonneg (m : Z) (l : location) :
  (0 <= m)%Z -> (0 <= round_nearest_even m l)%Z.
Proof.
  intros H. unfold round_nearest_even.
  destruct l as [| []]; try destruct (Z.even m); lia.
Qed.

Lemma binary_round_aux_nonneg (mx ex : Z) (lx : location) :
  (0 <= mx)%Z ->
  nonneg (binary_round_aux F.prec F.emax false mx ex lx) = true.
Proof.
  intros H. unfold binary_round_aux.
  pose proof (shr_fexp_nonneg mx ex lx H) as H1.
  destruct (shr_fexp F.prec F.emax mx ex lx) as [mrs' e']. cbn [fst] in H1.
  pose proof (shr_fexp_nonneg _ e' loc_Exact
                (round_nearest_even_nonneg _ (loc_of_shr_record mrs') H1))
    as H2.
  destruct (shr_fexp F.prec F.emax
              (round_nearest_even (shr_m mrs') (loc_of_shr_record mrs'))
              e' loc_Exact) as [mrs'' e''].
  cbn [fst] in H2.
  destruct (shr_m mrs''); [reflexivity | | lia].
  destruct (e'' <=? F.emax - F.prec)%Z; reflexivity.
Qed.

Lemma binary_round_nonneg (m : positive) (e : Z) :
  nonneg (binary_round F.prec F.emax false m e) = true.
Proof.
  unfold binary_round.
  destruct (shl_align m e _) as [mz ez].
  apply binary_round_aux_nonneg. lia.
Qed.

Lemma add_nonneg (a b : float) :
  nonneg a = true -> nonneg b = true -> nonneg (F.add a b) = true.
Proof.
  destruct a as [[] | [] | | [] ma ea], b as [[] | [] | | [] mb eb];
    try discriminate; try reflexivity.
  intros _ _. unfold F.add, SFadd. cbn [cond_Zopp Z.add binary_normalize].
  apply binary_round_nonneg.
Qed.

Lemma mul_nonneg (a b : float) :
  nonneg a = true -> nonneg b = true ->
  F.is_finite b = true -> b <> S754_zero false ->
  nonneg (F.mul a b) = true.
Proof.
  destruct a as [[] | [] | | [] ma ea], b as [[] | [] | | [] mb eb];
    try discriminate; try reflexivity; intros _ _ _ Hz;
    try (exfalso; apply Hz; reflexivity).
  unfold F.mul, SFmul. cbn [xorb].
  apply binary_round_aux_nonneg. lia.
Qed.

Lemma mul_finite_nonneg (a b : float) :
  nonneg a = true -> nonneg b = true ->
  F.is_finite a = true -> F.is_finite b = true ->
  nonneg (F.mul a b) = true.
Proof.
  destruct a as [[] | [] | | [] ma ea], b as [[] | [] | | [] mb eb];
    try discriminate; try reflexivity; intros _ _ _ _.
  unfold F.mul, SFmul. cbn [xorb].
  apply binary_round_aux_nonneg. lia.
Qed.

Lemma sqrt_nonneg (x : float) :
  nonneg x = true -> nonneg (F.sqrt x) = true.
Proof.
  destruct x as [[] | [] | | [] mx ex]; try discriminate; try reflexivity.
  intros _. unfold F.sqrt, SFsqrt, SFsqrt_core_binary.
  match goal with
  | |- context [Z.sqrtrem ?a] =>
      pose proof (Z.sqrtrem_sqrt a) as Hs;
      pose proof (Z.sqrt_nonneg a) as Hn;
      destruct (Z.sqrtrem a) as [q r]
  end.
  cbn [fst] in Hs. apply binary_round_aux_nonneg. lia.
Qed.

Lemma digit_value_nonneg (c : ascii) :
  is_digit c = true ->
  nonneg (digit_value c) = true /\ F.is_finite (digit_value c) = true.
Proof. split_char c; try discriminate; split; reflexivity. Qed.

Lemma frac_finite (k : nat) :
  k <= 10 -> nonneg (frac k) = true /\ F.is_finite (frac k) = true.
Proof.
  intros H.
  do 11 (destruct k as [| k]; [vm_compute; split; reflexivity |]).
  lia.
Qed.

(** The loop keeps [res] non-negative, and [fraction] is 1 divided by
    ten once per fractional digit read. *)
Lemma scan_nonneg (l : list ascii) (st : pstate) :
  nonneg (res st) = true ->
  (exists k, k <= count st /\ fraction st = frac k) ->
  nonneg (res (scan l st)) = true.
Proof.
  revert st; induction l as [| c l IH]; intros st Hr (k & Hk & Hf);
    [exact Hr |].
  simpl scan. destruct (count st <? max_decimal_digits) eqn:Hc;
    [| exact Hr].
  apply Nat.ltb_lt in Hc. unfold max_decimal_digits in Hc.
  destruct (classify c) eqn:Hcl.
  - apply classify_digit in Hcl.
    destruct (digit_value_nonneg c Hcl) as [Dn Df].
    apply IH; unfold on_digit; destruct (integer st); cbn [res count fraction].
    + apply add_nonneg; [| exact Dn].
      apply mul_nonneg; [exact Hr | reflexivity | reflexivity | discriminate].
    + destruct (frac_finite (S k)) as [Fn Ff]; [lia |].
      apply add_nonneg; [exact Hr |]. rewrite Hf.
      apply (mul_finite_nonneg _ (frac (S k))); assumption.
    + exists k; split; [lia | exact Hf].
    + exists (S k); split; [lia |]. rewrite Hf. reflexivity.
  - apply IH; [exact Hr |]. exists k; split; assumption.
  - exact Hr.
Qed.

Section SignsAndLoop.

Context {M : LibM}.

Lemma process_line_digit (x : float) (m : bool) (line : line_t) :
  is_digit (at_ line 0) = true ->
  process_line x m line
  = (fst (fst (parse_arg line 0)), m, snd (parse_arg line 0)).
Proof.
  intros H. unfold process_line.
  rewrite parse_op_lookup, H. cbn [arity].
  rewrite (skip_ws_not_space line 0 (digit_nonempty line H)
             (digit_not_space _ H)).
  destruct (parse_arg line 0) as [[arg j] d1]. cbn [binary fst snd app].
  rewrite app_nil_r. reflexivity.
Qed.

(** X11.  [parse_arg] never returns NaN and never a value with the sign
    bit set: its result is +0, a positive double or +infinity, from any
    line and cursor.  So the accumulator after a line that starts with a
    digit is of that kind too. *)
Theorem X11_parse_arg_is_nonneg (line : line_t) (i : nat) (x : float)
        (m : bool) :
  nonneg (fst (fst (parse_arg line i))) = true
  /\ F.is_nan (fst (fst (parse_arg line i))) = false
  /\ (is_digit (at_ line 0) = true ->
      nonneg (value_of (process_line x m line)) = true).
Proof.
  assert (G : forall l j, nonneg (fst (fst (parse_arg l j))) = true).
  { intros l j. rewrite parse_arg_scan. cbv zeta. cbn [fst].
    apply scan_nonneg; [reflexivity |].
    exists 0; split; [apply Nat.le_0_l | reflexivity]. }
  repeat split.
  - apply G.
  - pose proof (G line i) as H.
    destruct (fst (fst (parse_arg line i))); try discriminate H; reflexivity.
  - intros H. rewrite (process_line_digit x m line H). apply G.
Qed.

(** X12.  [SQRT] never makes a NaN out of a number: its result is NaN
    only if the accumulator was; where the root is taken (the
    accumulator is greater than 0) the result is non-negative and no
    diagnostic is written. *)
Theorem X12_sqrt_keeps_numbers (x : float) (m : bool) :
  F.is_nan (fst (unary x SQRT m)) = F.is_nan x
  /\ (F.gt x (F.of_Z 0) = true ->
      unary x SQRT m = (F.sqrt x, [])
      /\ nonneg (F.sqrt x) = true).
Proof.
  cbn [unary].
  assert (P : F.gt x (F.of_Z 0) = true -> nonneg x = true).
  { destruct x as [[] | [] | | [] mx ex]; try discriminate; reflexivity. }
  split.
  - destruct (F.gt x (F.of_Z 0)) eqn:E; cbn [fst]; [| reflexivity].
    pose proof (sqrt_nonneg x (P eq_refl)) as H.
    pose proof (P eq_refl) as Hx.
    destruct (F.sqrt x); try discriminate H;
      destruct x; try discriminate Hx; reflexivity.
  - intros H. rewrite H. split; [reflexivity |].
    apply sqrt_nonneg, P, H.
Qed.

(** ** The loop of [main] *)

Lemma last_cons_default (c d : float) (o : list float) :
  last (c :: o) d = last o c.
Proof.
  revert c d; induction o as [| a o IH]; intros c d; [reflexivity |].
  change (last (c :: a :: o) d) with (last (a :: o) d).
  rewrite (IH a d). symmetry. apply (IH a c).
Qed.

Lemma main_from_out (s : session) (lines : list line_t) :
  exists out ds,
    printed (main_from s lines) = printed s ++ out
    /\ length out = length lines
    /\ cerr (main_from s lines) = cerr s ++ ds
    /\ current (main_from s lines) = last out (current s).
Proof.
  revert s; induction lines as [| line lines IH]; intros s.
  - exists [], []. simpl. rewrite !app_nil_r. auto.
  - unfold main_from in *. cbn [fold_left].
    destruct (IH (main_step s line)) as (out & ds & I1 & I2 & I3 & I4).
    unfold main_step in *.
    destruct (process_line (current s) (rad_on s) line) as [[c m] d].
    cbn [printed cerr current] in *.
    exists (c :: out), (d ++ ds).
    rewrite I1, I3, I4, <- !app_assoc, last_cons_default.
    cbn [length app]. auto.
Qed.

(** X13.  The loop of [main] prints exactly one value per line read; the
    accumulator is the value printed last (0 before any line); and what
    was printed and written to [std::cerr] for the lines read so far is
    not changed by the lines that follow. *)
Theorem X13_main_prints_every_line (lines more : list line_t) :
  length (printed (main lines)) = length lines
  /\ current (main lines) = last (printed (main lines)) (F.of_Z 0)
  /\ firstn (length lines) (printed (main (lines ++ more)))
     = printed (main lines)
  /\ firstn (length (cerr (main lines))) (cerr (main (lines ++ more)))
     = cerr (main lines).
Proof.
  unfold main.
  destruct (main_from_out main_init lines) as (out & ds & I1 & I2 & I3 & I4).
  cbn [printed cerr current main_init app] in I1, I3, I4.
  assert (E : main_from main_init (lines ++ more)
              = main_from (main_from main_init lines) more)
    by (unfold main_from; apply fold_left_app).
  destruct (main_from_out (main_from main_init lines) more)
    as (out' & ds' & J1 & _ & J3 & _).
  rewrite E, J1, J3, I1, I3.
  repeat split.
  - exact I2.
  - exact I4.
  - rewrite <- I2, firstn_app, firstn_all, Nat.sub_diag. simpl.
    apply app_nil_r.
  - rewrite firstn_app, firstn_all, Nat.sub_diag. simpl. apply app_nil_r.
Qed.

End SignsAndLoop.

(** * Further properties: cursors stay inside the line *)

Lemma starts_with_length (tok line : list ascii) :
  starts_with tok line = true -> length tok <= length line.
Proof.
  revert line; induction tok as [| a tok IH]; intros [| b line] H;
    simpl in *; try lia; try discriminate.
  apply andb_true_iff in H as [_ H]. apply IH in H. lia.
Qed.

Lemma str_length (s : string) : length (str s) = String.length s.
Proof. induction s as [| c s IH]; simpl; auto. Qed.

Section Bounds.

Context {M : LibM}.

(** X14.  The cursor never leaves the line.  From a cursor inside the
    line (its end included), [parse_op] returns a cursor inside the line,
    and so do [skip_ws] and [parse_arg]; so in [process_line] the
    argument of [line.substr] is always a valid position and no call can
    throw. *)
Theorem X14_cursor_stays_in_line (line : line_t) (i : nat) :
  i <= length line ->
  snd (fst (parse_op line i)) <= length line
  /\ skip_ws line i <= length line
  /\ snd (fst (parse_arg line i)) <= length line
  /\ snd (fst (parse_arg line
                 (skip_ws line (snd (fst (parse_op line 0))))))
     <= length line.
Proof.
  intros Hi.
  assert (Hop : forall k, k <= length line ->
                          snd (fst (parse_op line k)) <= length line).
  { intros k Hk. rewrite parse_op_from, parse_op_lookup.
    destruct (is_digit (at_ (skipn k line) 0)); [exact Hk |].
    destruct (lookup (symbols ++ mnemonics) (skipn k line))
      as [[tok op] |] eqn:E; [| exact Hk].
    apply find_some in E as [_ E]. cbn [fst] in E.
    apply starts_with_length in E.
    rewrite str_length, length_skipn in E. cbn [fst snd]. lia. }
  assert (Hws : forall k, k <= length line -> skip_ws line k <= length line).
  { intros k Hk. rewrite skip_ws_leading.
    destruct (leading_spaces_spec (skipn k line)) as (L & _).
    rewrite length_skipn in L. lia. }
  assert (Hpa : forall k, k <= length line ->
                          snd (fst (parse_arg line k)) <= length line).
  { intros k Hk. rewrite parse_arg_scan. cbv zeta. cbn [fst snd].
    destruct (scan_inv (skipn k line) (parse_init k)) as (n & K1 & K2 & _).
    rewrite length_skipn in K1. rewrite K2. cbn [pos parse_init]. lia. }
  repeat split; auto.
  apply Hpa, Hws, Hop, Nat.le_0_l.
Qed.

(** X15.  A line that starts with a digit overwrites the accumulator:
    its value, mode and diagnostics do not depend on the accumulator
    before it, so that the same line applied again changes nothing. *)
Theorem X15_literal_overwrites (x x' : float) (m : bool) (line : line_t) :
  is_digit (at_ line 0) = true ->
  process_line x m line = process_line x' m line
  /\ (let r := process_line x m line in
      process_line (value_of r) (mode_of r) line = r).
Proof.
  intros H. cbv zeta.
  rewrite (process_line_digit x m line H),
    (process_line_digit x' m line H).
  split; [reflexivity |].
  cbn [value_of mode_of fst snd].
  apply (process_line_digit _ m line H).
Qed.

End Bounds.

(** * The further properties at concrete lines

    As before, on [Fragment.libm] and inside the fragment. *)

(** X3 at the line [ +3]: the space in front makes it unknown. *)
Lemma X3_leading_space_is_unknown_witness :
  isspace (at_ (str " +3") 0) = true
  /\ process_line (M := Fragment.libm) (F.of_Z 7) true (str " +3")
     = (F.of_Z 7, true, [Unknown_operation (str " +3")]).
Proof.
  split; [reflexivity |].
  apply (X3_leading_space_is_unknown (M := Fragment.libm) (F.of_Z 7) true
           (str " +3")).
  reflexivity.
Defined.

(** X4 at [+  3] against [+3]. *)
Lemma X4_space_before_argument_witness :
  process_line (M := Fragment.libm) (F.of_Z 5) false
    (str "+" ++ str "  " ++ str "3")
  = process_line (M := Fragment.libm) (F.of_Z 5) false (str "+" ++ str "3").
Proof.
  apply (X4_space_before_argument (M := Fragment.libm) (F.of_Z 5) false
           "+"%string ADD (str "  ") (str "3")).
  - simpl; tauto.
  - reflexivity.
  - reflexivity.
Defined.

(** X5 at [*] followed by a space: the accumulator is multiplied by 0. *)
Lemma X5_missing_argument_is_zero_witness :
  process_line (M := Fragment.libm) (F.of_Z 5) false (str "*" ++ str " ")
  = (fst (binary (M := Fragment.libm) MUL (F.of_Z 5) (F.of_Z 0)), false,
     snd (binary (M := Fragment.libm) MUL (F.of_Z 5) (F.of_Z 0))).
Proof.
  apply (X5_missing_argument_is_zero (M := Fragment.libm) (F.of_Z 5) false
           "*"%string MUL (str " ")).
  - simpl; tauto.
  - reflexivity.
  - reflexivity.
Defined.

(** X6 at the negative zero: the first line gives +0, the second gives
    the negative zero back. *)
Lemma X6_negate_twice_witness :
  process_line (M := Fragment.libm) (S754_zero true) false (str "_" ++ [])
  = (S754_zero false, false, [])
  /\ process_line (M := Fragment.libm) (S754_zero false) false
       (str "_" ++ str " x")
     = (S754_zero true, false, []).
Proof.
  pose proof (X6_negate_twice (M := Fragment.libm) (S754_zero true) false
                [] (str " x")) as (N1 & N2 & _).
  split; [exact N1 |].
  apply N2. reflexivity.
Defined.

(** X7 at [SQRT] on -4, which keeps the accumulator, and at [ASIN] on 2,
    which replaces it by infinity. *)
Lemma X7_failure_keeps_state_witness :
  (mode_of (process_line (M := Fragment.libm) (F.of_Z (-4)) true (str "SQRT"))
   = true
   /\ (value_of (process_line (M := Fragment.libm) (F.of_Z (-4)) true
                   (str "SQRT")) = F.of_Z (-4)
       \/ (op_of (str "SQRT") = ASIN
           /\ value_of (process_line (M := Fragment.libm) (F.of_Z (-4)) true
                          (str "SQRT")) = INFINITY)))
  /\ (mode_of (process_line (M := Fragment.libm) (F.of_Z 2) true (str "ASIN"))
      = true
      /\ (value_of (process_line (M := Fragment.libm) (F.of_Z 2) true
                      (str "ASIN")) = F.of_Z 2
          \/ (op_of (str "ASIN") = ASIN
              /\ value_of (process_line (M := Fragment.libm) (F.of_Z 2) true
                             (str "ASIN")) = INFINITY))).
Proof.
  split.
  - apply (X7_failure_keeps_state (M := Fragment.libm) (F.of_Z (-4)) true
             (str "SQRT")).
    reflexivity.
  - apply (X7_failure_keeps_state (M := Fragment.libm) (F.of_Z 2) true
             (str "ASIN")).
    reflexivity.
Defined.

(** X9 at the smallest positive double, inside the domain (its inverse
    overflows to infinity, whose arctangent is pi/2, 90 in degrees), at
    1, where the result is pi/4 and 45, and at 0, 4 and NaN, outside. *)
Lemma X9_actn_domain_witness :
  unary (M := Fragment.libm) (S754_finite false 1 (-1074)) ACTN true
  = (F.div M_PI (F.of_Z 2), [])
  /\ unary (M := Fragment.libm) (F.of_Z 0) ACTN true
     = (F.of_Z 0, [Bad_ACTN (F.of_Z 0)])
  /\ unary (M := Fragment.libm) (F.of_Z 4) ACTN true
     = (F.of_Z 4, [Bad_ACTN (F.of_Z 4)])
  /\ unary (M := Fragment.libm) F.nan ACTN true = (F.nan, [Bad_ACTN F.nan])
  /\ unary (M := Fragment.libm) (S754_finite false 1 (-1074)) ACTN false
     = (F.of_Z 90, [])
  /\ unary (M := Fragment.libm) (F.of_Z 1) ACTN true
     = (F.div M_PI (F.of_Z 4), [])
  /\ unary (M := Fragment.libm) (F.of_Z 1) ACTN false = (F.of_Z 45, []).
Proof.
  pose proof (X9_actn_domain (M := Fragment.libm)
                (S754_finite false 1 (-1074)) true) as (A1 & _).
  pose proof (X9_actn_domain (M := Fragment.libm) (F.of_Z 0) true)
    as (_ & _ & A0 & _).
  pose proof (X9_actn_domain (M := Fragment.libm) (F.of_Z 4) true)
    as (_ & _ & _ & A4 & _).
  pose proof (X9_actn_domain (M := Fragment.libm) F.nan true)
    as (_ & _ & _ & _ & An & _).
  pose proof (X9_actn_domain (M := Fragment.libm)
                (S754_finite false 1 (-1074)) false)
    as (_ & _ & _ & _ & _ & D1).
  pose proof (X9_actn_domain (M := Fragment.libm) (F.of_Z 1) false)
    as (_ & _ & _ & _ & _ & D2).
  split; [apply A1; reflexivity |].
  split; [apply A0; reflexivity |].
  split; [apply A4; reflexivity |].
  split; [apply An; reflexivity |].
  split; [apply (proj2 (D1 eq_refl)) |].
  split; [apply (proj1 (D2 eq_refl)) |].
  apply (proj2 (D2 eq_refl)).
Defined.

(** X10 at [SQRT] on 4. *)
Lemma X10_mode_only_for_angles_witness :
  uses_angle (op_of (str "SQRT")) = false
  /\ value_of (process_line (M := Fragment.libm) (F.of_Z 4) true (str "SQRT"))
     = value_of (process_line (M := Fragment.libm) (F.of_Z 4) false
                   (str "SQRT"))
  /\ diags_of (process_line (M := Fragment.libm) (F.of_Z 4) true (str "SQRT"))
     = diags_of (process_line (M := Fragment.libm) (F.of_Z 4) false
                   (str "SQRT")).
Proof.
  split; [reflexivity |].
  apply (X10_mode_only_for_angles (M := Fragment.libm) (F.of_Z 4) true false
           (str "SQRT")).
  reflexivity.
Defined.

(** X11 at the line [12.5]. *)
Lemma X11_parse_arg_is_nonneg_witness :
  is_digit (at_ (str "12.5") 0) = true
  /\ nonneg (value_of (process_line (M := Fragment.libm) (F.of_Z (-1)) true
                         (str "12.5"))) = true.
Proof.
  split; [reflexivity |].
  apply (proj2 (proj2 (X11_parse_arg_is_nonneg (M := Fragment.libm)
                         (str "12.5") 0 (F.of_Z (-1)) true))).
  reflexivity.
Defined.

(** X12 at 2. *)
Lemma X12_sqrt_keeps_numbers_witness :
  unary (M := Fragment.libm) (F.of_Z 2) SQRT true = (F.sqrt (F.of_Z 2), [])
  /\ nonneg (F.sqrt (F.of_Z 2)) = true.
Proof.
  apply (proj2 (X12_sqrt_keeps_numbers (M := Fragment.libm) (F.of_Z 2) true)).
  reflexivity.
Defined.

(** X14 at [+ 12x] from cursor 0. *)
Lemma X14_cursor_stays_in_line_witness :
  snd (fst (parse_op (str "+ 12x") 0)) <= length (str "+ 12x")
  /\ skip_ws (str "+ 12x") 0 <= length (str "+ 12x")
  /\ snd (fst (parse_arg (str "+ 12x") 0)) <= length (str "+ 12x")
  /\ snd (fst (parse_arg (str "+ 12x")
                 (skip_ws (str "+ 12x")
                    (snd (fst (parse_op (str "+ 12x") 0))))))
     <= length (str "+ 12x").
Proof.
  apply (X14_cursor_stays_in_line (str "+ 12x") 0). simpl; lia.
Defined.

(** X15 at [42]. *)
Lemma X15_literal_overwrites_witness :
  process_line (M := Fragment.libm) (F.of_Z 1) true (str "42")
  = process_line (M := Fragment.libm) (F.of_Z 2) true (str "42")
  /\ process_line (M := Fragment.libm)
       (value_of (process_line (M := Fragment.libm) (F.of_Z 1) true
                    (str "42")))
       (mode_of (process_line (M := Fragment.libm) (F.of_Z 1) true
                   (str "42")))
       (str "42")
     = process_line (M := Fragment.libm) (F.of_Z 1) true (str "42").
Proof.
  apply (X15_literal_overwrites (M := Fragment.libm) (F.of_Z 1) (F.of_Z 2)
           true (str "42")).
  reflexivity.
Defined.
